(** * A layered configuration container: [config.py]

    Shallow embedding of the [ConfigAttribute] descriptor and of the [Config]
    dictionary subclass, with its loaders ([from_envvar], [from_pyfile],
    [from_object], [from_json], [from_mapping]) and its prefix query
    ([get_namespace]).

    Python objects that are mutated in place (the [Config] instances and the
    plain dictionaries [get_namespace] returns) live in an object store and
    are handled through references, so that "the same store" and "a fresh
    mapping" mean what they mean in Python.  Exceptions are results; a raise
    keeps whatever the store had become at that point. *)

From Stdlib Require Import String Ascii List ZArith DecimalString Lia.
From stdpp Require Import base list strings.
Import ListNotations.

Local Open Scope string_scope.
Local Open Scope list_scope.

(** ** Python values, dictionaries, exceptions *)

(** The values a configuration holds.  [VRef] is an opaque object reference
    (a function, a class, a module, ...), named for readability. *)
#[local] Unset Elimination Schemes.
Inductive value : Type :=
| VNone
| VBool (b : bool)
| VInt (n : Z)
| VStr (s : string)
| VList (xs : list value)
| VDict (d : list (string * value))
| VRef (name : string).
#[local] Set Elimination Schemes.

(** A [dict] with [str] keys, in insertion order.  Keys are unique in every
    dictionary built with [setitem] from the empty one. *)
Definition dict : Type := list (string * value).

(** [d.get(k)]: the value bound to [k], if any. *)
Fixpoint getitem (k : string) (d : dict) : option value :=
  match d with
  | [] => None
  | (k', v) :: d' => if String.eqb k k' then Some v else getitem k d'
  end.

(** [d[k] = v]: an existing key keeps its position, a new key goes last. *)
Fixpoint setitem (k : string) (v : value) (d : dict) : dict :=
  match d with
  | [] => [(k, v)]
  | (k', v') :: d' =>
      if String.eqb k k' then (k, v) :: d' else (k', v') :: setitem k v d'
  end.

(** [d.update(pairs)], pair by pair. *)
Definition update (pairs : list (string * value)) (d : dict) : dict :=
  fold_left (fun acc kv => setitem (fst kv) (snd kv) acc) pairs d.

Definition keys (d : dict) : list string := map fst d.

(** The exception classes the module raises or lets through. *)
Inductive exn : Type :=
| Exception (msg : string)
| RuntimeError (msg : string)
| TypeError (msg : string)
| ValueError (msg : string)
| KeyError (key : string)
| NameError (name : string)
| AttributeError (name : string)
| IOError (errno : Z) (strerror : string)
| SyntaxError (msg : string)
| SystemError (msg : string).

(** [errno.ENOENT], [errno.EISDIR] and [errno.EACCES]. *)
Definition ENOENT : Z := 2.
Definition EISDIR : Z := 21.
Definition EACCES : Z := 13.

Inductive outcome (A : Type) : Type :=
| Return (a : A)
| Raise (e : exn).
Arguments Return {A} a.
Arguments Raise {A} e.

(** ** The object store and the monad of statements *)

Abbreviation loc := nat.

(** The dictionaries allocated so far; a reference is an index. *)
Abbreviation heap := (list dict).

Definition M (A : Type) : Type := heap -> outcome A * heap.

Definition ret {A} (a : A) : M A := fun h => (Return a, h).

Definition raise {A} (e : exn) : M A := fun h => (Raise e, h).

Definition bind {A B} (c : M A) (k : A -> M B) : M B :=
  fun h =>
    match c h with
    | (Return a, h') => k a h'
    | (Raise e, h') => (Raise e, h')
    end.

Notation "x <- c ;; k" := (bind c (fun x => k))
  (at level 100, c at next level, right associativity).
Notation "c ;;; k" := (bind c (fun _ => k))
  (at level 100, right associativity).

(** A pure computation that may raise. *)
Definition lift {A} (o : outcome A) : M A := fun h => (o, h).

(** [try: body / except: handler]. *)
Definition try_except {A} (body : M A) (handler : exn -> M A) : M A :=
  fun h =>
    match body h with
    | (Return a, h') => (Return a, h')
    | (Raise e, h') => handler e h'
    end.

(** [for x in xs: body(x)]; an exception ends the loop. *)
Fixpoint for_each {A} (xs : list A) (body : A -> M unit) : M unit :=
  match xs with
  | [] => ret tt
  | x :: xs' => body x ;;; for_each xs' body
  end.

(** Allocation of a dictionary object with the given initial content. *)
Definition new_dict (init : dict) : M loc :=
  fun h => (Return (length h), h ++ [init]).

(** The content behind a reference.  Every reference the program holds comes
    from [new_dict], so the second case does not arise in a run. *)
Definition deref (l : loc) : M dict :=
  fun h =>
    match h !! l with
    | Some d => (Return d, h)
    | None => (Raise (SystemError "stale reference"), h)
    end.

Definition assign (l : loc) (d : dict) : M unit :=
  fun h => (Return tt, <[l := d]> h).

(** [obj[k] = v] on the dictionary behind [l]. *)
Definition dict_setitem (l : loc) (k : string) (v : value) : M unit :=
  d <- deref l ;; assign l (setitem k v d).

(** [obj[k]] on the dictionary behind [l]. *)
Definition dict_getitem (l : loc) (k : string) : M value :=
  d <- deref l ;;
  match getitem k d with
  | Some v => ret v
  | None => raise (KeyError k)
  end.

(** ** Strings *)

(** A string of ASCII characters only.  A string stands for the UTF-8 bytes
    of a Python [str], so a byte above 127 is part of a non-ASCII character. *)
Fixpoint is_ascii (s : string) : bool :=
  match s with
  | EmptyString => true
  | String c s' => (N.ltb (N_of_ascii c) 128 && is_ascii s')%bool
  end.

(** [str.lower] as it acts on ASCII characters: A to Z become a to z.  On a
    string with non-ASCII characters Python also maps those (the lower case
    of a capital E with an accent, say), which this function does not: what
    is proved of lowercased keys, beyond idempotence, is stated for ASCII
    keys. *)
Definition lower_ascii (c : ascii) : ascii :=
  let n := N_of_ascii c in
  if (N.leb 65 n && N.leb n 90)%bool then ascii_of_N (n + 32) else c.

Fixpoint lower (s : string) : string :=
  match s with
  | EmptyString => EmptyString
  | String c s' => String (lower_ascii c) (lower s')
  end.

(** [k.startswith(prefix)]. *)
Definition startswith (k prefix : string) : bool := String.prefix prefix k.

(** [k[n:]]. *)
Fixpoint slice_from (n : nat) (k : string) : string :=
  match n, k with
  | O, _ => k
  | S n', String _ k' => slice_from n' k'
  | S _, EmptyString => EmptyString
  end.

(** ['%d' % n]. *)
Definition format_d (n : nat) : string := NilZero.string_of_uint (Nat.to_uint n).

Fixpoint has_char (c : ascii) (s : string) : bool :=
  match s with
  | EmptyString => false
  | String a s' => (Ascii.eqb a c || has_char c s')%bool
  end.

Definition hex_digit (n : N) : ascii :=
  ascii_of_N (if N.ltb n 10 then 48 + n else 87 + n).

(** One character inside [repr(s)], with [q] the quote in use. *)
Definition repr_char (q c : ascii) : string :=
  let n := N_of_ascii c in
  if (Ascii.eqb c q || Ascii.eqb c "\")%bool then String "\" (String c EmptyString)
  else if N.eqb n 9 then "\t"
  else if N.eqb n 10 then "\n"
  else if N.eqb n 13 then "\r"
  else if (N.ltb n 32 || N.eqb n 127)%bool
  then "\x" +:+ String (hex_digit (n / 16)) (String (hex_digit (n mod 16)) EmptyString)
  else String c EmptyString.

Fixpoint repr_chars (q : ascii) (s : string) : string :=
  match s with
  | EmptyString => EmptyString
  | String c s' => repr_char q c +:+ repr_chars q s'
  end.

(** ['%r' % s], the [repr] of a string: in single quotes, or in double
    quotes when the string has a single quote and no double quote; the
    quote in use, the backslash and the control characters are escaped.
    Bytes above 127 are kept, as [repr] keeps printable characters. *)
Definition format_r (s : string) : string :=
  let dq := ascii_of_nat 34 in
  let q := if (has_char "'" s && negb (has_char dq s))%bool then dq else "'"%char in
  String q (repr_chars q s +:+ String q EmptyString).

(** [sorted(names)]: insertion sort by code point. *)
Fixpoint insert_sorted (x : string) (l : list string) : list string :=
  match l with
  | [] => [x]
  | y :: l' => if String.leb x y then x :: y :: l' else y :: insert_sorted x l'
  end.

Definition sorted (l : list string) : list string :=
  fold_right insert_sorted [] l.

(** ** Python objects as [dir] and [getattr] see them *)

(** [from_object] only asks an object for [dir(obj)] and [getattr(obj, key)]. *)
Record pyobject : Type := {
  py_dir : list string;
  py_getattr : string -> outcome value
}.

(** An object whose attributes are the entries of a namespace dictionary:
    [dir] lists the names in sorted order. *)
Definition namespace_object (ns : dict) : pyobject :=
  {| py_dir := sorted (keys ns);
     py_getattr := fun name =>
       match getitem name ns with
       | Some v => Return v
       | None => Raise (AttributeError name)
       end |}.

(** [types.ModuleType(name)]: the namespace of a new module object. *)
Definition ModuleType (name : string) : dict :=
  [("__name__", VStr name); ("__doc__", VNone); ("__package__", VNone);
   ("__loader__", VNone); ("__spec__", VNone)].

(** A module object with the given [__dict__].  [dir] lists the names of the
    namespace.  [getattr] finds [__class__] and [__dict__] on the module
    type, which comes first for these two, and every other name in the
    namespace.  A namespace that binds [__dir__] or [__getattr__] to a
    function, which a module would call, is outside the model. *)
Definition module_object (globals : dict) : pyobject :=
  {| py_dir := sorted (keys globals);
     py_getattr := fun name =>
       if String.eqb name "__class__" then Return (VRef "module")
       else if String.eqb name "__dict__" then Return (VDict globals)
       else py_getattr (namespace_object globals) name |}.

(** What every class has before its body binds anything: the attributes of
    [object] and those the [class] statement adds (CPython 3.8 to 3.10;
    later versions add more).  The built-in methods are opaque references. *)
Definition class_builtins : dict :=
  ("__doc__", VNone) ::
  map (fun n => (n, VRef n))
    ["__class__"; "__delattr__"; "__dict__"; "__dir__"; "__eq__";
     "__format__"; "__ge__"; "__getattribute__"; "__gt__"; "__hash__";
     "__init__"; "__init_subclass__"; "__le__"; "__lt__"; "__module__";
     "__ne__"; "__new__"; "__reduce__"; "__reduce_ex__"; "__repr__";
     "__setattr__"; "__sizeof__"; "__str__"; "__subclasshook__";
     "__weakref__"].

(** The class object of [class C: <body>]: the names of the body, which
    shadow the built-in ones, and the built-in ones. *)
Definition class_object (body : dict) : pyobject :=
  namespace_object (update body class_builtins).

(** ** Arguments of [from_mapping] *)

(** One element of an iterable, as [for (key, value) in ...] sees it: a pair,
    or something whose unpacking raises [e]. *)
Inductive item : Type :=
| Pair (key : string) (val : value)
| NotPair (e : exn).

(** What a [for] loop over an object does: yield items, or raise because the
    object is not iterable. *)
Inductive iterable : Type :=
| Items (xs : list item)
| NotIterable (e : exn).

(** A positional argument: an object with an [items] method (a mapping), or
    any other object. *)
Inductive pyarg : Type :=
| Mapping (d : dict)
| Other (it : iterable).

(** [d.items()]. *)
Definition items (d : dict) : iterable :=
  Items (map (fun kv => Pair (fst kv) (snd kv)) d).

(** ** The world outside the module *)

(** The environment, the file system and the two interpreters the loaders
    call.  [exec(compile(source, filepath, 'exec'), globals)] runs the code
    of the file: it is a statement like any other, which may change every
    object of the store and raise, and which leaves a namespace.
    [json.loads] only maps a text to the object it denotes. *)
Record World : Type := {
  environ : string -> option string;
  path_exists : string -> bool;
  read_bytes : string -> outcome string;
  read_text : string -> outcome string;
  exec_compile : string -> string -> dict -> M dict;
  json_loads : string -> outcome pyarg
}.

(** ** Classes, class methods and names *)

Inductive pyclass : Type := ConfigClass.

(** What a method is looked up on: the class, or one of its instances. *)
Inductive receiver : Type :=
| OnClass (c : pyclass)
| OnInstance (self : loc).

(** [@classmethod]: the function receives the class, also when it is looked
    up on an instance. *)
Definition classmethod {A} (f : pyclass -> A) (r : receiver) : A :=
  match r with
  | OnClass c => f c
  | OnInstance _ => f ConfigClass
  end.

(** The names of the module that are bound to a class. *)
Definition module_scope : list (string * pyclass) := [("Config", ConfigClass)].

(** Evaluation of a name to a class: the local scope, then the module's.
    The other module-level names ([os], [types], [errno], [json], [six],
    [ConfigAttribute], [cfg]) are not looked up this way. *)
Fixpoint lookup_scope (name : string) (scope : list (string * pyclass))
  : option pyclass :=
  match scope with
  | [] => None
  | (n, c) :: scope' => if String.eqb name n then Some c else lookup_scope name scope'
  end.

Definition load_name (locals : list (string * pyclass)) (name : string)
  : M pyclass :=
  match lookup_scope name (locals ++ module_scope) with
  | Some c => ret c
  | None => raise (NameError name)
  end.

(** The result of a file loader: [False], or a [Config] object. *)
Inductive load_result : Type :=
| RetFalse
| RetConfig (cfg : loc).

(** ** class ConfigAttribute *)

Module ConfigAttribute.

Record t : Type := {
  __name__ : string;
  get_converter : option (value -> outcome value)
}.

Definition __init__ (name : string)
    (get_converter : option (value -> outcome value)) : t :=
  {| __name__ := name; get_converter := get_converter |}.

(** An object with a [config] attribute. *)
Record owner : Type := { config : loc }.

(** What [__get__] returns: the descriptor itself, or a value. *)
Inductive got : Type :=
| GotSelf (self : t)
| GotValue (rv : value).

Definition __get__ (self : t) (obj : option owner) : M got :=
  match obj with
  | None => ret (GotSelf self)
  | Some obj =>
      rv <- dict_getitem (config obj) (__name__ self) ;;
      rv <- match get_converter self with
            | Some conv => lift (conv rv)
            | None => ret rv
            end ;;
      ret (GotValue rv)
  end.

Definition __set__ (self : t) (obj : owner) (v : value) : M unit :=
  dict_setitem (config obj) (__name__ self) v.

End ConfigAttribute.

(** ** class Config(dict) *)

Module Config.

(** [dict.__init__(self, defaults or {})]. *)
Definition __init__ (defaults : option dict) : M loc :=
  new_dict (update (match defaults with
                    | Some (x :: d) => x :: d
                    | _ => []
                    end) []).

(** [cls()]. *)
Definition instantiate (cls : pyclass) : M loc :=
  match cls with ConfigClass => __init__ None end.

Definition from_object (self : loc) (obj : pyobject) : M unit :=
  for_each (py_dir obj) (fun key =>
    v <- lift (py_getattr obj key) ;;
    dict_setitem self key v).

Definition from_mapping (self : loc) (mapping : list pyarg) (kwargs : dict)
  : M bool :=
  mappings <-
    match mapping with
    | [m] =>
        match m with
        | Mapping d => ret [items d]
        | Other it => ret [it]
        end
    | [] => ret []
    | _ => raise (TypeError ("expected at most 1 positional argument, got "
                             +:+ format_d (length mapping)))
    end ;;
  let mappings := mappings ++ [items kwargs] in
  for_each mappings (fun mapping =>
    match mapping with
    | NotIterable e => raise e
    | Items xs =>
        for_each xs (fun x =>
          match x with
          | NotPair e => raise e
          | Pair key val => dict_setitem self key val
          end)
    end) ;;;
  ret true.

Definition get_namespace (self : loc) (namespace : string)
    (lowercase trim_namespace : bool) : M loc :=
  rv <- new_dict [] ;;
  kvs <- deref self ;;
  for_each kvs (fun kv =>
    let k := fst kv in
    let v := snd kv in
    if negb (startswith k namespace) then ret tt
    else
      let key := if trim_namespace then slice_from (String.length namespace) k
                 else k in
      let key := if lowercase then lower key else key in
      dict_setitem rv key v) ;;;
  ret rv.

Section Loaders.

Variable w : World.

(** The [except IOError as e] clause the two file loaders share; [inl tt]
    stands for the [return False] inside the clause. *)
Definition on_ioerror {A} (silent : bool) (e : exn) : M (unit + A) :=
  match e with
  | IOError errno strerror =>
      if (silent && (Z.eqb errno ENOENT || Z.eqb errno EISDIR))%bool
      then ret (inl tt)
      else raise (IOError errno
                    ("Unable to load configuration file (" +:+ strerror +:+ ")"))
  | _ => raise e
  end.

(** The existence test comes before the [try]; [d] is the namespace of the
    module object the file is executed in. *)
Definition from_pyfile : receiver -> string -> bool -> M load_result :=
  classmethod (fun (cls : pyclass) (filepath : string) (silent : bool) =>
    if negb (path_exists w filepath)
    then raise (Exception (filepath +:+ " is not exists"))
    else
      let d := setitem "__file__" (VStr filepath) (ModuleType "config") in
      r <- try_except
             (source <- lift (read_bytes w filepath) ;;
              d' <- exec_compile w source filepath d ;;
              ret (inr d'))
             (on_ioerror silent) ;;
      match r with
      | inl _ => ret RetFalse
      | inr d =>
          c <- load_name [("cls", cls)] "cls" ;;
          cfg <- instantiate c ;;
          from_object cfg (module_object d) ;;;
          ret (RetConfig cfg)
      end).

(** The first parameter, which receives the class, is called [self]; the
    last line evaluates the name [cls].  The first case of the match is
    [if not rv]: the variable is unset, or set to the empty string. *)
Definition from_envvar : receiver -> string -> bool -> M load_result :=
  classmethod (fun (self : pyclass) (variable_name : string) (silent : bool) =>
    match environ w variable_name with
    | None | Some EmptyString =>
        if silent then ret RetFalse
        else raise (RuntimeError
               ("The environment variable " +:+ format_r variable_name
                +:+ " is not set and as such configuration could not be "
                +:+ "loaded.  Set this variable and make it "
                +:+ "point to a configuration file"))
    | Some rv =>
        c <- load_name [("self", self)] "cls" ;;
        from_pyfile (OnClass c) rv silent
    end).

Definition from_json : receiver -> string -> bool -> M load_result :=
  classmethod (fun (cls : pyclass) (filepath : string) (silent : bool) =>
    if negb (path_exists w filepath)
    then raise (Exception (filepath +:+ " is not exists"))
    else
      r <- try_except
             (text <- lift (read_text w filepath) ;;
              obj <- lift (json_loads w text) ;;
              ret (inr obj))
             (on_ioerror silent) ;;
      match r with
      | inl _ => ret RetFalse
      | inr obj =>
          c <- load_name [("cls", cls)] "cls" ;;
          cfg <- instantiate c ;;
          from_mapping cfg [obj] [] ;;;
          ret (RetConfig cfg)
      end).

End Loaders.

End Config.

(** ** Specification vocabulary *)

(** The value of the last pair with key [k] in a sequence of pairs. *)
Fixpoint last_binding (k : string) (pairs : list (string * value))
  : option value :=
  match pairs with
  | [] => None
  | (k', v) :: pairs' =>
      match last_binding k pairs' with
      | Some v' => Some v'
      | None => if String.eqb k k' then Some v else None
      end
  end.

(** The pairs a loop gets through before the first element that raises, and
    that exception. *)
Fixpoint scan {A} (f : A -> outcome (string * value)) (xs : list A)
  : list (string * value) * option exn :=
  match xs with
  | [] => ([], None)
  | x :: xs' =>
      match f x with
      | Raise e => ([], Some e)
      | Return kv => let (ps, err) := scan f xs' in (kv :: ps, err)
      end
  end.

Definition finish (err : option exn) : outcome unit :=
  match err with
  | None => Return tt
  | Some e => Raise e
  end.

Definition unpack (x : item) : outcome (string * value) :=
  match x with
  | Pair k v => Return (k, v)
  | NotPair e => Raise e
  end.

Definition pairs_as_items (ps : list (string * value)) : list item :=
  map (fun kv => Pair (fst kv) (snd kv)) ps.

(** One call [self.from_mapping( *positional, **keywords)]. *)
Record call : Type := {
  positional : list pyarg;
  keywords : dict
}.

(** The pairs a positional argument yields when all its elements unpack. *)
Definition arg_pairs (a : pyarg) : option (list (string * value)) :=
  match a with
  | Mapping d => Some d
  | Other (Items xs) =>
      match scan unpack xs with
      | (ps, None) => Some ps
      | (_, Some _) => None
      end
  | Other (NotIterable _) => None
  end.

(** The calls that return: at most one positional argument, and one whose
    elements all unpack into a key and a value. *)
Definition accepted (c : call) : bool :=
  match positional c with
  | [] => true
  | [a] => match arg_pairs a with Some _ => true | None => false end
  | _ => false
  end.

(** The pairs of the positional argument of a call. *)
Definition positional_pairs (c : call) : list (string * value) :=
  match positional c with
  | [a] => match arg_pairs a with Some ps => ps | None => [] end
  | _ => []
  end.

(** The value a call supplies for [k]: the keyword override if there is one,
    else the last pair of the positional argument with that key.  (On the
    items of a dictionary, [last_binding] is its lookup.) *)
Definition supplies (c : call) (k : string) : option value :=
  match last_binding k (keywords c) with
  | Some v => Some v
  | None => last_binding k (positional_pairs c)
  end.

(** The value supplied by the last call of a sequence that supplies one. *)
Fixpoint last_supplied (k : string) (calls : list call) : option value :=
  match calls with
  | [] => None
  | c :: calls' =>
      match last_supplied k calls' with
      | Some v => Some v
      | None => supplies c k
      end
  end.

(** A sequence of [from_mapping] calls on the same store. *)
Definition run_calls (self : loc) (calls : list call) : M unit :=
  for_each calls (fun c =>
    Config.from_mapping self (positional c) (keywords c) ;;; ret tt).

(** [getattr(obj, key)] paired with its key, as the loop of [from_object]
    uses it. *)
Definition getattr_pair (obj : pyobject) (key : string)
  : outcome (string * value) :=
  match py_getattr obj key with
  | Return v => Return (key, v)
  | Raise e => Raise e
  end.

(** Whether [dir(obj)] lists a name. *)
Definition listed (obj : pyobject) (name : string) : bool :=
  existsb (String.eqb name) (py_dir obj).

Definition returned {A} (o : outcome A) : option A :=
  match o with
  | Return a => Some a
  | Raise _ => None
  end.

(** The key [get_namespace] gives an entry whose key starts with the
    namespace. *)
Definition namespace_key (namespace : string) (lowercase trim_namespace : bool)
    (k : string) : string :=
  let key := if trim_namespace then slice_from (String.length namespace) k
             else k in
  if lowercase then lower key else key.

(** The entries [get_namespace] selects, under their new keys, in the order
    of the store. *)
Definition namespace_pairs (namespace : string) (lowercase trim_namespace : bool)
    (d : dict) : list (string * value) :=
  map (fun kv => (namespace_key namespace lowercase trim_namespace (fst kv), snd kv))
      (List.filter (fun kv => startswith (fst kv) namespace) d).

(** What a file loader makes of an [IOError] raised while it opens and reads
    the file: [False] for a missing file or a directory when [silent] is set,
    else the same error with its message rewritten. *)
Definition after_ioerror (silent : bool) (errno : Z) (strerror : string)
    (h : heap) : outcome load_result * heap :=
  if (silent && (Z.eqb errno ENOENT || Z.eqb errno EISDIR))%bool
  then (Return RetFalse, h)
  else (Raise (IOError errno
                 ("Unable to load configuration file (" +:+ strerror +:+ ")")), h).

(** ** An example deployment *)

Definition quoted (s : string) : string :=
  String (ascii_of_nat 34) (s +:+ String (ascii_of_nat 34) EmptyString).

(** The text [{"log_level": "debug", "log_file": ""}]. *)
Definition app_json : string :=
  "{" +:+ quoted "log_level" +:+ ": " +:+ quoted "debug" +:+ ", "
  +:+ quoted "log_file" +:+ ": " +:+ quoted "" +:+ "}".

(** [APP_SETTINGS] points to [/etc/app.py], which holds [DEBUG = True];
    [EMPTY] is set to the empty string; [/etc/app.json] holds [app_json];
    [/etc] is a directory; [/etc/secret.json] and [/etc/secret.py] exist but
    cannot be read; [/etc/gone.py] and [/etc/gone.json] pass the existence
    test and are removed before they are opened; no other path exists. *)
Definition example_world : World :=
  let read := fun p : string =>
    if String.eqb p "/etc/app.py" then Return "DEBUG = True"
    else if String.eqb p "/etc/app.json" then Return app_json
    else if String.eqb p "/etc" then Raise (IOError EISDIR "Is a directory")
    else if (String.eqb p "/etc/secret.json" || String.eqb p "/etc/secret.py")%bool
    then Raise (IOError EACCES "Permission denied")
    else Raise (IOError ENOENT "No such file or directory") in
  {| environ := fun name =>
       if String.eqb name "APP_SETTINGS" then Some "/etc/app.py"
       else if String.eqb name "EMPTY" then Some ""
       else None;
     path_exists := fun p =>
       existsb (String.eqb p)
         ["/etc/app.py"; "/etc/app.json"; "/etc"; "/etc/secret.json";
          "/etc/secret.py"; "/etc/gone.py"; "/etc/gone.json"];
     read_bytes := read;
     read_text := read;
     exec_compile := fun source filepath globals =>
       if String.eqb source "DEBUG = True"
       then ret (update [("__builtins__", VRef "builtins");
                         ("DEBUG", VBool true)] globals)
       else raise (SyntaxError "invalid syntax");
     json_loads := fun text =>
       if String.eqb text app_json
       then Return (Mapping [("log_level", VStr "debug"); ("log_file", VStr "")])
       else Raise (ValueError "Expecting value") |}.

(** The store of the [get_namespace] docstring, with one more key. *)
Definition image_store_config : dict :=
  [("IMAGE_STORE_TYPE", VStr "fs"); ("IMAGE_STORE_PATH", VStr "/var/app/images");
   ("OTHER_KEY", VStr "x")].

(** The class object of [class C: A = 1; B = 'x']. *)
Definition class_AB : pyobject :=
  class_object [("A", VInt 1); ("B", VStr "x")].

(** ** [main.py] *)

(** The truth value of an object in [if v:]. *)
Definition truthy (v : value) : bool :=
  match v with
  | VNone => false
  | VBool b => b
  | VInt n => negb (Z.eqb n 0)
  | VStr s => negb (String.eqb s "")
  | VList xs => match xs with [] => false | _ => true end
  | VDict d => match d with [] => false | _ => true end
  | VRef _ => true
  end.

(** [v == s] for a string literal [s]. *)
Definition eq_str (v : value) (s : string) : bool :=
  match v with
  | VStr s' => String.eqb s' s
  | _ => false
  end.

(** [d.get(k)]: the value, or [None]. *)
Definition dict_get (k : string) (d : dict) : value :=
  match getitem k d with
  | Some v => v
  | None => VNone
  end.

(** [p.rfind(c)]: the index of the last occurrence of [c], or -1. *)
Fixpoint rfind_from (c : ascii) (p : string) (i : Z) : Z :=
  match p with
  | EmptyString => (-1)%Z
  | String a p' =>
      let r := rfind_from c p' (i + 1)%Z in
      if (0 <=? r)%Z then r else if Ascii.eqb a c then i else (-1)%Z
  end.

Definition rfind (c : ascii) (p : string) : Z := rfind_from c p 0%Z.

Fixpoint any_char (f : ascii -> bool) (s : string) : bool :=
  match s with
  | EmptyString => false
  | String a s' => (f a || any_char f s')%bool
  end.

(** [os.path.splitext] on a POSIX path: the extension starts at the last dot
    of the last component, unless only dots precede it there. *)
Definition splitext (p : string) : string * string :=
  let sepIndex := rfind "/" p in
  let dotIndex := rfind "." p in
  if (sepIndex <? dotIndex)%Z then
    let filenameIndex := (sepIndex + 1)%Z in
    if any_char (fun a => negb (Ascii.eqb a "."))
         (substring (Z.to_nat filenameIndex) (Z.to_nat (dotIndex - filenameIndex)) p)
    then (substring 0 (Z.to_nat dotIndex) p, slice_from (Z.to_nat dotIndex) p)
    else (p, "")
  else (p, "").

(** The namespace [parse_args] returns for the parser of [init_argparse]:
    every option has a default, so the three attributes are always there. *)
Record Namespace : Type := {
  log_file : string;
  log_level : string;
  config_file : string
}.

(** The defaults of [init_argparse]. *)
Definition default_args : Namespace :=
  {| log_file := ""; log_level := "info"; config_file := "config.json" |}.

(** [args._get_kwargs()]: the attributes as (name, value) pairs, sorted by
    name (Python 3.8; from 3.9 on in the order they were set, which changes
    no lookup). *)
Definition _get_kwargs (args : Namespace) : list (string * value) :=
  [("config_file", VStr (config_file args)); ("log_file", VStr (log_file args));
   ("log_level", VStr (log_level args))].

(** [init_config], in the variant with [use_config == 'y'].  The result is
    the object the function binds [config.cfg] to with its last statement;
    when it raises, [config.cfg] stays what it was. *)
Definition init_config (w : World) (args : Namespace) : M loc :=
  let cfg_file := config_file args in
  let ext := snd (splitext cfg_file) in
  cfg <- (if String.eqb ext ".json"
          then Config.from_json w (OnClass ConfigClass) cfg_file false
          else if String.eqb ext ".py"
          then Config.from_pyfile w (OnClass ConfigClass) cfg_file false
          else raise (Exception "还未实现该配置文件格式的读取方法")) ;;
  match cfg with
  | RetFalse => raise (AttributeError "from_mapping")
  | RetConfig cfg =>
      Config.from_mapping cfg [Other (Items (pairs_as_items (_get_kwargs args)))] [] ;;;
      ret cfg
  end.

(** [logging.DEBUG] ... [logging.CRITICAL]. *)
Definition DEBUG : Z := 10.
Definition INFO : Z := 20.
Definition WARNING : Z := 30.
Definition ERROR : Z := 40.
Definition CRITICAL : Z := 50.

(** The keyword arguments of a [logging.basicConfig] call. *)
Record basicConfig : Type := {
  level : Z;
  format : string;
  datefmt : string;
  filename : option value;
  filemode : option string
}.

(** The body the two variants of [init_logger] share, from
    [log_level = logging.INFO] on. *)
Definition configure_logging (log_level_str log_file_str : value) : basicConfig :=
  let log_level := INFO in
  let log_format := "%(asctime)s %(levelname)s %(message)s" in
  let '(log_level, log_format) :=
    if eq_str log_level_str "debug"
    then (DEBUG,
          "%(asctime)s %(filename)s[line:%(lineno)d] %(levelname)s %(message)s")
    else if eq_str log_level_str "info" then (INFO, log_format)
    else if eq_str log_level_str "warning" then (WARNING, log_format)
    else if eq_str log_level_str "error" then (ERROR, log_format)
    else if eq_str log_level_str "critical" then (CRITICAL, log_format)
    else (log_level, log_format) in
  if truthy log_file_str
  then {| level := log_level; format := log_format;
          datefmt := "%a, %d %b %Y %H:%M:%S";
          filename := Some log_file_str; filemode := Some "a" |}
  else {| level := log_level; format := log_format;
          datefmt := "%a, %d %b %Y %H:%M:%S";
          filename := None; filemode := None |}.

(** [init_logger] with [use_config == 'y']: the settings come from the
    object [config.cfg] is bound to. *)
Definition init_logger (cfg : loc) : M basicConfig :=
  d <- deref cfg ;;
  let log_level_str := dict_get "log_level" d in
  let log_file_str := dict_get "log_file" d in
  ret (configure_logging log_level_str log_file_str).

(** [init_logger] without [use_config]: the settings come from [args]. *)
Definition init_logger_args (args : Namespace) : basicConfig :=
  configure_logging (VStr (log_level args)) (VStr (log_file args)).

(** [main] with [use_config == 'y'], from the namespace [init_argparse]
    stores in [args]. *)
Definition main (w : World) (args : Namespace) : M basicConfig :=
  cfg <- init_config w args ;;
  init_logger cfg.

(** ** Dictionaries *)

Section DictFacts.

Implicit Types (k : string) (v : value) (d : dict).

Lemma getitem_setitem_eq k v d : getitem k (setitem k v d) = Some v.
Proof.
  induction d as [|[k' v'] d IH]; simpl.
  - now rewrite String.eqb_refl.
  - destruct (String.eqb k k') eqn:E; simpl.
    + now rewrite String.eqb_refl.
    + now rewrite E.
Qed.

Lemma getitem_setitem_ne k k' v d :
  k <> k' -> getitem k' (setitem k v d) = getitem k' d.
Proof.
  intros Hne. induction d as [|[k0 v0] d IH]; simpl.
  - destruct (String.eqb_spec k' k); congruence.
  - destruct (String.eqb_spec k k0) as [->|Hk]; simpl.
    + destruct (String.eqb_spec k' k0); congruence.
    + destruct (String.eqb_spec k' k0); auto.
Qed.

Lemma getitem_setitem k k' v d :
  getitem k' (setitem k v d) = if String.eqb k' k then Some v else getitem k' d.
Proof.
  destruct (String.eqb_spec k' k) as [->|Hne].
  - apply getitem_setitem_eq.
  - apply getitem_setitem_ne. congruence.
Qed.

Lemma getitem_update k pairs : forall d,
  getitem k (update pairs d) =
  match last_binding k pairs with
  | Some v => Some v
  | None => getitem k d
  end.
Proof.
  unfold update. induction pairs as [|[k' v'] pairs IH]; intros d; simpl.
  - reflexivity.
  - rewrite IH. destruct (last_binding k pairs); [reflexivity|].
    rewrite getitem_setitem. now destruct (String.eqb k k').
Qed.

Lemma update_app ps qs d : update (ps ++ qs) d = update qs (update ps d).
Proof. unfold update. apply fold_left_app. Qed.

Lemma getitem_None_keys k d : getitem k d = None <-> ~ In k (keys d).
Proof.
  induction d as [|[k' v'] d IH]; simpl.
  - tauto.
  - destruct (String.eqb_spec k k') as [->|Hne].
    + split; [discriminate|]. intros H. exfalso. apply H. now left.
    + rewrite IH. split.
      * intros H [E|E]; [congruence|tauto].
      * tauto.
Qed.

Lemma setitem_fresh k v d : ~ In k (keys d) -> setitem k v d = d ++ [(k, v)].
Proof.
  induction d as [|[k' v'] d IH]; simpl; intros H.
  - reflexivity.
  - destruct (String.eqb_spec k k') as [->|Hne].
    + exfalso. apply H. now left.
    + rewrite IH; [reflexivity|]. tauto.
Qed.

Lemma keys_setitem k v d :
  keys (setitem k v d) =
  match getitem k d with
  | Some _ => keys d
  | None => keys d ++ [k]
  end.
Proof.
  induction d as [|[k' v'] d IH]; simpl.
  - reflexivity.
  - destruct (String.eqb_spec k k') as [->|Hne]; simpl.
    + reflexivity.
    + rewrite IH. now destruct (getitem k d).
Qed.

Lemma NoDup_keys_setitem k v d : List.NoDup (keys d) -> List.NoDup (keys (setitem k v d)).
Proof.
  intros Hd. rewrite keys_setitem.
  destruct (getitem k d) eqn:E; [assumption|].
  apply getitem_None_keys in E.
  apply List.NoDup_app; repeat split; auto.
  - constructor; [simpl; tauto | constructor].
  - intros x Hx [<-|[]]. contradiction.
Qed.

Lemma NoDup_keys_update pairs : forall d,
  List.NoDup (keys d) -> List.NoDup (keys (update pairs d)).
Proof.
  unfold update. induction pairs as [|[k v] pairs IH]; intros d Hd; simpl.
  - assumption.
  - apply IH. now apply NoDup_keys_setitem.
Qed.

(** Copying a dictionary with unique keys pair by pair rebuilds it. *)
Lemma update_fresh pairs : forall d,
  List.NoDup (keys (d ++ pairs)) -> update pairs d = d ++ pairs.
Proof.
  unfold update, keys.
  induction pairs as [|[k v] pairs IH]; intros d Hd; simpl.
  - now rewrite List.app_nil_r.
  - rewrite setitem_fresh.
    + rewrite IH; rewrite <- List.app_assoc; simpl; auto.
    + rewrite List.map_app in Hd. simpl in Hd.
      apply List.NoDup_remove_2 in Hd. intros Hin. apply Hd.
      apply List.in_or_app. now left.
Qed.

Lemma update_copy d : List.NoDup (keys d) -> update d [] = d.
Proof. intros Hd. now rewrite update_fresh. Qed.

End DictFacts.

(** ** Statements on the object store *)

Section StoreFacts.

Implicit Types (h : heap) (l : loc) (d : dict).

Lemma deref_run l h d : h !! l = Some d -> deref l h = (Return d, h).
Proof. unfold deref. now intros ->. Qed.

Lemma dict_setitem_run l k v h d :
  h !! l = Some d ->
  dict_setitem l k v h = (Return tt, <[l := setitem k v d]> h).
Proof. intros H. unfold dict_setitem, bind. now rewrite (deref_run _ _ _ H). Qed.

Lemma dict_getitem_run l k h d :
  h !! l = Some d ->
  dict_getitem l k h =
  (match getitem k d with Some v => Return v | None => Raise (KeyError k) end, h).
Proof.
  intros H. unfold dict_getitem, bind. rewrite (deref_run _ _ _ H).
  now destruct (getitem k d).
Qed.

Lemma lookup_after_insert l h d d' : h !! l = Some d -> <[l := d']> h !! l = Some d'.
Proof. intros H. apply list_lookup_insert_eq. now apply lookup_lt_Some in H. Qed.

Lemma lookup_fresh h d : (h ++ [d]) !! length h = Some d.
Proof. now apply list_lookup_middle. Qed.

Lemma lookup_old h d l d0 : h !! l = Some d0 -> (h ++ [d]) !! l = Some d0.
Proof.
  intros H. rewrite lookup_app_l; [assumption|]. now apply lookup_lt_Some in H.
Qed.

Lemma old_is_not_fresh h l d : h !! l = Some d -> l <> length h.
Proof. intros H. apply lookup_lt_Some in H. lia. Qed.

(** A loop whose body writes one pair into the dictionary behind [l], or
    raises: it writes the pairs [scan] collects, in order, and ends the way
    [scan] says. *)
Lemma for_each_scan {A} (f : A -> outcome (string * value)) l
    (body : A -> M unit) :
  (forall x h, body x h =
     match f x with
     | Return kv => dict_setitem l (fst kv) (snd kv) h
     | Raise e => (Raise e, h)
     end) ->
  forall xs h d, h !! l = Some d ->
    for_each xs body h =
    (finish (snd (scan f xs)), <[l := update (fst (scan f xs)) d]> h).
Proof.
  intros Hbody. induction xs as [|x xs IH]; intros h d Hl; simpl.
  - unfold ret. simpl. now rewrite list_insert_id.
  - unfold bind. rewrite Hbody. destruct (f x) as [[k v]|e]; simpl.
    + rewrite (dict_setitem_run _ _ _ _ _ Hl).
      rewrite (IH _ (setitem k v d)) by now apply (lookup_after_insert _ _ d).
      destruct (scan f xs) as [ps err]. simpl.
      now rewrite list_insert_insert_eq.
    + now rewrite list_insert_id.
Qed.

Lemma scan_all_pairs ps :
  scan unpack (pairs_as_items ps) = (ps, None).
Proof.
  induction ps as [|[k v] ps IH]; simpl; [reflexivity|]. now rewrite IH.
Qed.

(** The loop of [from_mapping] over one iterable of items. *)
Lemma items_loop_run l xs h d :
  h !! l = Some d ->
  for_each xs (fun x =>
    match x with
    | NotPair e => raise e
    | Pair key val => dict_setitem l key val
    end) h =
  (finish (snd (scan unpack xs)), <[l := update (fst (scan unpack xs)) d]> h).
Proof.
  apply for_each_scan. intros [k v|e] h'; reflexivity.
Qed.

Lemma pairs_loop_run l ps h d :
  h !! l = Some d ->
  for_each (pairs_as_items ps) (fun x =>
    match x with
    | NotPair e => raise e
    | Pair key val => dict_setitem l key val
    end) h =
  (Return tt, <[l := update ps d]> h).
Proof.
  intros H. rewrite (items_loop_run _ _ _ _ H). now rewrite scan_all_pairs.
Qed.

End StoreFacts.

(** ** [from_mapping] *)

Section FromMapping.

Implicit Types (h : heap) (self : loc) (d kwargs : dict).

Lemma last_binding_app k ps qs :
  last_binding k (ps ++ qs) =
  match last_binding k qs with
  | Some v => Some v
  | None => last_binding k ps
  end.
Proof.
  induction ps as [|[k' v'] ps IH]; simpl.
  - now destruct (last_binding k qs).
  - rewrite IH. now destruct (last_binding k qs).
Qed.

Lemma last_binding_unique k d :
  List.NoDup (keys d) -> last_binding k d = getitem k d.
Proof.
  induction d as [|[k' v'] d IH]; simpl; intros Hd; [reflexivity|].
  inversion Hd as [|x xs Hx Hd']; subst.
  rewrite (IH Hd'). destruct (String.eqb_spec k k') as [->|Hne].
  - apply getitem_None_keys in Hx. now rewrite Hx.
  - now destruct (getitem k d).
Qed.

(** No positional argument: the keyword arguments are written. *)
Lemma from_mapping_keywords self kwargs h d :
  h !! self = Some d ->
  Config.from_mapping self [] kwargs h =
  (Return true, <[self := update kwargs d]> h).
Proof.
  intros H. unfold Config.from_mapping, bind, ret, items. simpl.
  unfold bind. now rewrite (pairs_loop_run _ _ _ _ H).
Qed.

(** One positional argument without [items]: its elements are written up
    to the first that does not unpack; if all do, the keyword arguments
    follow. *)
Lemma from_mapping_iterable self xs kwargs h d :
  h !! self = Some d ->
  Config.from_mapping self [Other (Items xs)] kwargs h =
  match snd (scan unpack xs) with
  | Some e => (Raise e, <[self := update (fst (scan unpack xs)) d]> h)
  | None =>
      (Return true, <[self := update kwargs (update (fst (scan unpack xs)) d)]> h)
  end.
Proof.
  intros H. unfold Config.from_mapping, bind, ret, items. simpl.
  unfold bind. rewrite (items_loop_run _ _ _ _ H).
  destruct (scan unpack xs) as [ps [e|]]; simpl; [reflexivity|].
  rewrite (pairs_loop_run _ _ _ (update ps d))
    by now apply (lookup_after_insert _ _ d).
  now rewrite list_insert_insert_eq.
Qed.

(** One positional argument with [items]. *)
Lemma from_mapping_mapping self m kwargs h d :
  h !! self = Some d ->
  Config.from_mapping self [Mapping m] kwargs h =
  (Return true, <[self := update kwargs (update m d)]> h).
Proof.
  intros H. unfold Config.from_mapping, bind, ret, items. simpl.
  unfold bind. rewrite (pairs_loop_run _ _ _ _ H).
  rewrite (pairs_loop_run _ _ _ (update m d))
    by now apply (lookup_after_insert _ _ d).
  now rewrite list_insert_insert_eq.
Qed.

Lemma from_mapping_accepted (c : call) self h d :
  accepted c = true -> h !! self = Some d ->
  Config.from_mapping self (positional c) (keywords c) h =
  (Return true,
   <[self := update (keywords c) (update (positional_pairs c) d)]> h).
Proof.
  unfold accepted, positional_pairs. intros Hc H.
  destruct (positional c) as [|a [|b rest]]; try discriminate.
  - now apply from_mapping_keywords.
  - destruct a as [m|[xs|e]]; simpl in *; try discriminate.
    + now apply from_mapping_mapping.
    + rewrite (from_mapping_iterable _ _ _ _ _ H).
      destruct (scan unpack xs) as [ps [e|]]; simpl; [discriminate|reflexivity].
Qed.

Lemma supplies_update (c : call) k d :
  getitem k (update (keywords c) (update (positional_pairs c) d)) =
  match supplies c k with
  | Some v => Some v
  | None => getitem k d
  end.
Proof.
  unfold supplies. rewrite !getitem_update.
  now destruct (last_binding k (keywords c)).
Qed.

Lemma run_calls_accepted (calls : list call) self : forall h d,
  h !! self = Some d ->
  Forall (fun c => accepted c = true) calls ->
  exists d',
    run_calls self calls h = (Return tt, <[self := d']> h) /\
    forall k, getitem k d' =
              match last_supplied k calls with
              | Some v => Some v
              | None => getitem k d
              end.
Proof.
  induction calls as [|c calls IH]; intros h d H Hall.
  - exists d. split; [|reflexivity].
    unfold run_calls. simpl. unfold ret. now rewrite list_insert_id.
  - inversion Hall as [|c' cs Hc Hcs]; subst.
    set (d1 := update (keywords c) (update (positional_pairs c) d)).
    destruct (IH (<[self := d1]> h) d1) as (d' & Hrun & Hget); auto.
    { now apply (lookup_after_insert _ _ d). }
    exists d'. split.
    + unfold run_calls in *. simpl. unfold bind at 1. unfold bind at 1.
      rewrite (from_mapping_accepted _ _ _ _ Hc H). fold d1. unfold ret at 1.
      rewrite Hrun. now rewrite list_insert_insert_eq.
    + intros k. rewrite Hget. simpl.
      destruct (last_supplied k calls); [reflexivity|].
      apply supplies_update.
Qed.

End FromMapping.

(** C6: [from_mapping] with two or more positional arguments raises the
    [TypeError] for too many arguments, whatever the arguments and the
    keyword arguments contain, and the object store is left as it was: no
    entry is written before the raise. *)
Theorem from_mapping_too_many_positional
    (self : loc) (mapping : list pyarg) (kwargs : dict) (h : heap) :
  2 <= length mapping ->
  Config.from_mapping self mapping kwargs h =
  (Raise (TypeError ("expected at most 1 positional argument, got "
                     +:+ format_d (length mapping))), h).
Proof.
  intros Hlen. destruct mapping as [|a [|b rest]]; simpl in Hlen; try lia.
  reflexivity.
Qed.

Lemma from_mapping_too_many_positional_witness :
  2 <= length [Mapping [("a", VInt 1)]; Other (Items [Pair "b" VNone])] /\
  Config.from_mapping 0 [Mapping [("a", VInt 1)]; Other (Items [Pair "b" VNone])]
    [("c", VBool true)] [[("k", VStr "v")]] =
  (Raise (TypeError "expected at most 1 positional argument, got 2"),
   [[("k", VStr "v")]]).
Proof.
  split; [simpl; lia|].
  apply (from_mapping_too_many_positional 0
           [Mapping [("a", VInt 1)]; Other (Items [Pair "b" VNone])]
           [("c", VBool true)] [[("k", VStr "v")]]).
  simpl; lia.
Defined.

(** C10: [from_mapping] with exactly one positional argument that has no
    [items] method and yields (key, value) pairs writes the pairs into the
    store in iteration order, then the keyword arguments, and returns
    [True]. *)
Theorem from_mapping_iterable_of_pairs
    (self : loc) (ps : list (string * value)) (kwargs : dict) (h : heap) (d : dict) :
  h !! self = Some d ->
  Config.from_mapping self [Other (Items (pairs_as_items ps))] kwargs h =
  (Return true, <[self := update kwargs (update ps d)]> h).
Proof.
  intros H. rewrite (from_mapping_iterable _ _ _ _ _ H).
  now rewrite scan_all_pairs.
Qed.

Lemma from_mapping_iterable_of_pairs_witness :
  [[("a", VInt 0)]] !! 0 = Some [("a", VInt 0)] /\
  Config.from_mapping 0
    [Other (Items [Pair "b" (VInt 1); Pair "a" (VInt 2); Pair "b" (VInt 3)])]
    [("c", VInt 4); ("a", VInt 5)] [[("a", VInt 0)]] =
  (Return true, [[("a", VInt 5); ("b", VInt 3); ("c", VInt 4)]]).
Proof.
  split; [reflexivity|].
  apply (from_mapping_iterable_of_pairs 0
           [("b", VInt 1); ("a", VInt 2); ("b", VInt 3)]
           [("c", VInt 4); ("a", VInt 5)] [[("a", VInt 0)]] [("a", VInt 0)]).
  reflexivity.
Defined.

(** C7: last write wins.  After any sequence of [from_mapping] calls on one
    store, each at most one positional argument whose elements are pairs,
    the value of every key is the one supplied by the last call that
    supplies it (and the value it had before if no call does); within a
    call, a keyword argument takes precedence over the positional argument
    for the same key. *)
Theorem from_mapping_last_write_wins
    (calls : list call) (self : loc) (h : heap) (d : dict) :
  h !! self = Some d ->
  Forall (fun c => accepted c = true) calls ->
  (exists d',
     run_calls self calls h = (Return tt, <[self := d']> h) /\
     forall k, getitem k d' =
               match last_supplied k calls with
               | Some v => Some v
               | None => getitem k d
               end) /\
  (forall (c : call) k v,
     accepted c = true -> last_binding k (keywords c) = Some v ->
     exists d1,
       Config.from_mapping self (positional c) (keywords c) h =
       (Return true, <[self := d1]> h) /\
       getitem k d1 = Some v).
Proof.
  intros H Hall. split.
  - now apply run_calls_accepted.
  - intros c k v Hc Hk.
    exists (update (keywords c) (update (positional_pairs c) d)). split.
    + now apply from_mapping_accepted.
    + rewrite supplies_update. unfold supplies. now rewrite Hk.
Qed.

Lemma from_mapping_last_write_wins_witness :
  let calls :=
    [ {| positional := [Mapping [("a", VInt 1); ("b", VInt 1)]];
         keywords := [("b", VInt 2)] |};
      {| positional := [Other (Items [Pair "a" (VInt 3); Pair "a" (VInt 4)])];
         keywords := [] |};
      {| positional := []; keywords := [("c", VInt 5)] |} ] in
  let h := [[("a", VInt 0); ("z", VInt 0)]] in
  h !! 0 = Some [("a", VInt 0); ("z", VInt 0)] /\
  Forall (fun c => accepted c = true) calls /\
  (exists d',
     run_calls 0 calls h = (Return tt, <[0 := d']> h) /\
     forall k, getitem k d' =
               match last_supplied k calls with
               | Some v => Some v
               | None => getitem k [("a", VInt 0); ("z", VInt 0)]
               end).
Proof.
  intros calls h.
  assert (Hh : h !! 0 = Some [("a", VInt 0); ("z", VInt 0)]) by reflexivity.
  assert (Hc : Forall (fun c => accepted c = true) calls)
    by (repeat constructor).
  split; [exact Hh|]. split; [exact Hc|].
  exact (proj1 (from_mapping_last_write_wins calls 0 h _ Hh Hc)).
Defined.

(** ** [from_envvar] *)

Lemma from_envvar_set (w : World) (r : receiver) (variable_name path : string)
    (silent : bool) (h : heap) :
  environ w variable_name = Some path -> path <> "" ->
  Config.from_envvar w r variable_name silent h = (Raise (NameError "cls"), h).
Proof.
  intros Henv Hne. unfold Config.from_envvar, classmethod.
  destruct r; rewrite Henv; destruct path; try congruence; reflexivity.
Qed.

(** C3: when the environment variable is unset or empty, [from_envvar]
    raises the [RuntimeError] that names the variable if [silent] is false,
    and returns [False] if [silent] is true; in both cases the object store
    is exactly what it was. *)
Theorem from_envvar_unset
    (w : World) (r : receiver) (variable_name : string) (h : heap) :
  environ w variable_name = None \/ environ w variable_name = Some "" ->
  Config.from_envvar w r variable_name false h =
  (Raise (RuntimeError
     ("The environment variable " +:+ format_r variable_name
      +:+ " is not set and as such configuration could not be "
      +:+ "loaded.  Set this variable and make it "
      +:+ "point to a configuration file")), h) /\
  Config.from_envvar w r variable_name true h = (Return RetFalse, h).
Proof.
  intros Henv. unfold Config.from_envvar, classmethod.
  destruct r; destruct Henv as [-> | ->]; split; reflexivity.
Qed.

Lemma from_envvar_unset_witness :
  (environ example_world "MISSING_VAR" = None \/
   environ example_world "MISSING_VAR" = Some "") /\
  Config.from_envvar example_world (OnInstance 0) "MISSING_VAR" false
    [[("DEBUG", VBool false)]] =
  (Raise (RuntimeError
     "The environment variable 'MISSING_VAR' is not set and as such configuration could not be loaded.  Set this variable and make it point to a configuration file"),
   [[("DEBUG", VBool false)]]) /\
  Config.from_envvar example_world (OnInstance 0) "MISSING_VAR" true
    [[("DEBUG", VBool false)]] =
  (Return RetFalse, [[("DEBUG", VBool false)]]).
Proof.
  split; [left; reflexivity|].
  apply (from_envvar_unset example_world (OnInstance 0) "MISSING_VAR"
           [[("DEBUG", VBool false)]]).
  left; reflexivity.
Defined.

(** C4, as the code has it: with [APP_SETTINGS] set to [/etc/app.py],
    [from_pyfile] on that path returns a loaded [Config], while
    [from_envvar] on the variable raises [NameError] for the name [cls]
    and loads nothing. *)
Theorem from_envvar_does_not_delegate :
  environ example_world "APP_SETTINGS" = Some "/etc/app.py" /\
  Config.from_pyfile example_world (OnClass ConfigClass) "/etc/app.py" false [] =
  (Return (RetConfig 0),
   [[("DEBUG", VBool true); ("__builtins__", VRef "builtins");
     ("__doc__", VNone); ("__file__", VStr "/etc/app.py");
     ("__loader__", VNone); ("__name__", VStr "config");
     ("__package__", VNone); ("__spec__", VNone)]]) /\
  Config.from_envvar example_world (OnClass ConfigClass) "APP_SETTINGS" false [] =
  (Raise (NameError "cls"), []).
Proof. repeat split. Qed.

(** ** [ConfigAttribute] *)

(** C9: for a [ConfigAttribute] bound to ["DEBUG"], with any converter, on
    an owner whose [config] is a store: reading while ["DEBUG"] is absent
    raises [KeyError]; writing [True] stores [True] itself, so that a lookup
    of ["DEBUG"] in the store then returns [True], and no other store
    changes; reading on the class (no instance) returns the descriptor. *)
Theorem ConfigAttribute_forwards
    (conv : option (value -> outcome value)) (obj : ConfigAttribute.owner)
    (h : heap) (d : dict) :
  h !! ConfigAttribute.config obj = Some d ->
  (getitem "DEBUG" d = None ->
   ConfigAttribute.__get__ (ConfigAttribute.__init__ "DEBUG" conv) (Some obj) h =
   (Raise (KeyError "DEBUG"), h)) /\
  (exists h',
     ConfigAttribute.__set__ (ConfigAttribute.__init__ "DEBUG" conv) obj
       (VBool true) h = (Return tt, h') /\
     dict_getitem (ConfigAttribute.config obj) "DEBUG" h' =
     (Return (VBool true), h') /\
     forall l, l <> ConfigAttribute.config obj -> h' !! l = h !! l) /\
  ConfigAttribute.__get__ (ConfigAttribute.__init__ "DEBUG" conv) None h =
  (Return (ConfigAttribute.GotSelf (ConfigAttribute.__init__ "DEBUG" conv)), h).
Proof.
  intros H. repeat split.
  - intros Habs. unfold ConfigAttribute.__get__, bind. simpl.
    rewrite (dict_getitem_run _ _ _ _ H). now rewrite Habs.
  - exists (<[ConfigAttribute.config obj := setitem "DEBUG" (VBool true) d]> h).
    repeat split.
    + unfold ConfigAttribute.__set__. simpl. now apply dict_setitem_run.
    + rewrite (dict_getitem_run _ _ _ (setitem "DEBUG" (VBool true) d))
        by now apply (lookup_after_insert _ _ d).
      now rewrite getitem_setitem_eq.
    + intros l Hl. apply list_lookup_insert_ne. congruence.
Qed.

Lemma ConfigAttribute_forwards_witness :
  let obj := {| ConfigAttribute.config := 1 |} in
  let conv := Some (fun _ : value => Return (VStr "converted")) in
  let h := [[("DEBUG", VBool false)]; [("OTHER", VInt 1)]] in
  h !! ConfigAttribute.config obj = Some [("OTHER", VInt 1)] /\
  getitem "DEBUG" [("OTHER", VInt 1)] = None /\
  ConfigAttribute.__get__ (ConfigAttribute.__init__ "DEBUG" conv) (Some obj) h =
  (Raise (KeyError "DEBUG"), h).
Proof.
  intros obj conv h.
  split; [reflexivity|]. split; [reflexivity|].
  apply (proj1 (ConfigAttribute_forwards conv obj h [("OTHER", VInt 1)] eq_refl)).
  reflexivity.
Defined.

(** ** [get_namespace] and [from_object] *)

Section Queries.

Implicit Types (h : heap) (self rv : loc) (d : dict).

Lemma insert_fresh h d d' : <[length h := d']> (h ++ [d]) = h ++ [d'].
Proof.
  rewrite insert_app_r_alt by lia. now rewrite Nat.sub_diag.
Qed.

(** A loop that writes the selected entries into [rv] under their new
    keys and skips the others, as the one of [get_namespace] does. *)
Lemma namespace_loop rv namespace (lowercase trim_namespace : bool)
    (body : string * value -> M unit) :
  (forall kv h, body kv h =
     if startswith (fst kv) namespace
     then dict_setitem rv
            (namespace_key namespace lowercase trim_namespace (fst kv)) (snd kv) h
     else (Return tt, h)) ->
  forall kvs h acc, h !! rv = Some acc ->
  for_each kvs body h =
  (Return tt,
   <[rv := update (namespace_pairs namespace lowercase trim_namespace kvs) acc]> h).
Proof.
  intros Hbody. induction kvs as [|[k v] kvs IH]; intros h acc H.
  - simpl. unfold ret. now rewrite list_insert_id.
  - cbn [for_each]. unfold bind. rewrite Hbody. unfold namespace_pairs.
    cbn [List.filter fst snd].
    destruct (startswith k namespace) eqn:E; cbn [map fst snd].
    + rewrite (dict_setitem_run _ _ _ _ _ H).
      rewrite (IH _ (setitem (namespace_key namespace lowercase trim_namespace k) v acc))
        by now apply (lookup_after_insert _ _ acc).
      now rewrite list_insert_insert_eq.
    + now rewrite (IH _ _ H).
Qed.

(** [get_namespace] allocates a dictionary, fills it with the selected
    entries and returns it; nothing else changes. *)
Lemma get_namespace_run self namespace (lowercase trim_namespace : bool) h d :
  h !! self = Some d ->
  Config.get_namespace self namespace lowercase trim_namespace h =
  (Return (length h),
   h ++ [update (namespace_pairs namespace lowercase trim_namespace d) []]).
Proof.
  intros H. unfold Config.get_namespace, bind, new_dict.
  rewrite (deref_run _ _ d) by now apply lookup_old.
  erewrite (namespace_loop (length h) namespace lowercase trim_namespace _ _ d _ []).
  - unfold ret. now rewrite insert_fresh.
  - apply lookup_fresh.
  Unshelve.
  intros [k v] h'. cbn [fst snd]. unfold namespace_key.
  now destruct (startswith k namespace).
Qed.

Lemma startswith_empty k : startswith k "" = true.
Proof. unfold startswith. now destruct k. Qed.

(** With the empty namespace and both flags off, every entry is selected
    under its own key. *)
Lemma namespace_pairs_all d : namespace_pairs "" false false d = d.
Proof.
  unfold namespace_pairs. induction d as [|[k v] d IH]; [reflexivity|].
  cbn [List.filter fst snd]. rewrite startswith_empty.
  cbn [map fst snd]. now rewrite IH.
Qed.

(** [from_object] writes the attributes [dir] lists, in order, up to the
    first [getattr] that raises. *)
Lemma from_object_run self obj h d :
  h !! self = Some d ->
  Config.from_object self obj h =
  (finish (snd (scan (getattr_pair obj) (py_dir obj))),
   <[self := update (fst (scan (getattr_pair obj) (py_dir obj))) d]> h).
Proof.
  unfold Config.from_object. apply for_each_scan.
  intros key h'. unfold getattr_pair, bind, lift.
  now destruct (py_getattr obj key).
Qed.

Lemma scan_getattr obj names :
  (forall k, In k names -> exists v, py_getattr obj k = Return v) ->
  snd (scan (getattr_pair obj) names) = None /\
  forall k, last_binding k (fst (scan (getattr_pair obj) names)) =
            if existsb (String.eqb k) names then returned (py_getattr obj k)
            else None.
Proof.
  induction names as [|n names IH]; intros Hok; simpl.
  - split; reflexivity.
  - destruct (Hok n) as [v Hv]; [now left|].
    destruct IH as [IHerr IHget]; [intros k Hk; apply Hok; now right|].
    unfold getattr_pair at 1 3. rewrite Hv.
    destruct (scan (getattr_pair obj) names) as [ps err]. simpl in *.
    split; [assumption|]. intros k. rewrite IHget.
    destruct (String.eqb_spec k n) as [->|Hne]; simpl.
    + rewrite Hv. simpl. now destruct (existsb (String.eqb n) names).
    + destruct (existsb (String.eqb k) names); [|reflexivity].
      now destruct (returned (py_getattr obj k)).
Qed.

Lemma In_insert_sorted x y l : In x (insert_sorted y l) <-> x = y \/ In x l.
Proof.
  induction l as [|z l IH]; simpl.
  - intuition.
  - destruct (String.leb y z); simpl; [intuition|]. rewrite IH. intuition.
Qed.

Lemma In_sorted x l : In x (sorted l) <-> In x l.
Proof.
  induction l as [|y l IH]; simpl; [tauto|].
  rewrite In_insert_sorted, IH. intuition.
Qed.

Lemma existsb_eqb_In k names : existsb (String.eqb k) names = true <-> In k names.
Proof.
  rewrite List.existsb_exists. split.
  - intros (x & Hx & E). apply String.eqb_eq in E. now subst.
  - intros H. exists k. split; [assumption|apply String.eqb_refl].
Qed.

End Queries.

(** C8: on a store that holds exactly IMAGE_STORE_TYPE = 'fs',
    IMAGE_STORE_PATH = '/var/app/images' and OTHER_KEY = 'x' (in any
    insertion order), [get_namespace('IMAGE_STORE_')] with the default flags
    returns a newly allocated dictionary that holds exactly type = 'fs' and
    path = '/var/app/images'; the store is unchanged, and afterwards an
    assignment to either of the two objects leaves the other as it is. *)
Theorem get_namespace_image_store (self : loc) (h : heap) (d : dict) :
  h !! self = Some d ->
  d ≡ₚ image_store_config ->
  exists rv_d,
    Config.get_namespace self "IMAGE_STORE_" true true h =
    (Return (length h), h ++ [rv_d]) /\
    rv_d ≡ₚ [("type", VStr "fs"); ("path", VStr "/var/app/images")] /\
    length h <> self /\
    (forall k v, snd (dict_setitem (length h) k v (h ++ [rv_d])) !! self = Some d) /\
    (forall k v, snd (dict_setitem self k v (h ++ [rv_d])) !! length h = Some rv_d).
Proof.
  intros H Hperm.
  exists (update (namespace_pairs "IMAGE_STORE_" true true d) []).
  split; [now apply get_namespace_run|].
  assert (Hne : length h <> self) by (apply lookup_lt_Some in H; lia).
  split; [|split; [exact Hne|split]].
  - symmetry in Hperm. apply permutations_Permutation in Hperm.
    vm_compute in Hperm.
    repeat (apply elem_of_cons in Hperm as [->|Hperm]);
      [vm_compute; first [reflexivity | apply perm_swap] .. |].
    now apply elem_of_nil in Hperm.
  - intros k v. rewrite (dict_setitem_run _ _ _ _ _ (lookup_fresh _ _)). simpl.
    rewrite list_lookup_insert_ne by exact Hne. now apply lookup_old.
  - intros k v. rewrite (dict_setitem_run _ _ _ _ d) by now apply lookup_old.
    simpl. rewrite list_lookup_insert_ne by congruence. apply lookup_fresh.
Qed.

Lemma get_namespace_image_store_witness :
  let d := [("OTHER_KEY", VStr "x"); ("IMAGE_STORE_PATH", VStr "/var/app/images");
            ("IMAGE_STORE_TYPE", VStr "fs")] in
  let h := [[("DEBUG", VBool true)]; d] in
  h !! 1 = Some d /\
  d ≡ₚ image_store_config /\
  exists rv_d,
    Config.get_namespace 1 "IMAGE_STORE_" true true h = (Return 2, h ++ [rv_d]) /\
    rv_d ≡ₚ [("type", VStr "fs"); ("path", VStr "/var/app/images")].
Proof.
  intros d h.
  assert (Hd : h !! 1 = Some d) by reflexivity.
  assert (Hp : d ≡ₚ image_store_config).
  { unfold d, image_store_config.
    etransitivity; [apply Permutation_rev|]. reflexivity. }
  split; [exact Hd|]. split; [exact Hp|].
  destruct (get_namespace_image_store 1 h d Hd Hp) as (rv_d & Hrun & Hrv & _).
  exists rv_d. split; [exact Hrun | exact Hrv].
Defined.

(** What [from_object] followed by [get_namespace('', lowercase=False,
    trim_namespace=False)] produces on the class with fields A = 1 and
    B = 'x': more than the two fields. *)
Lemma round_trip_class_AB_is_not_exact :
  ~ exists (rv : loc) (h' : heap) (d : dict),
      (Config.from_object 0 class_AB ;;;
       Config.get_namespace 0 "" false false) [[]] = (Return rv, h') /\
      h' !! rv = Some d /\
      d ≡ₚ [("A", VInt 1); ("B", VStr "x")].
Proof.
  intros (rv & h' & d & Hrun & Hd & Hperm).
  vm_compute in Hrun. injection Hrun as <- <-.
  vm_compute in Hd. injection Hd as <-.
  apply Permutation_length in Hperm. discriminate Hperm.
Qed.

(** C5, as the code has it: [from_object] on an empty store followed by
    [get_namespace] with the empty prefix and both flags off returns a new
    dictionary that binds exactly the names [dir(obj)] lists, each to
    [getattr(obj, name)], and is an exact copy of what the store then
    holds.  For a class with fields A = 1 and B = 'x' these are A and B,
    unchanged, and the attributes every class has. *)
Theorem from_object_get_namespace_round_trip
    (obj : pyobject) (self : loc) (h : heap) :
  h !! self = Some [] ->
  (forall k, In k (py_dir obj) -> exists v, py_getattr obj k = Return v) ->
  exists copy,
    (Config.from_object self obj ;;;
     Config.get_namespace self "" false false) h =
    (Return (length h), <[self := copy]> h ++ [copy]) /\
    forall k, getitem k copy =
              if listed obj k then returned (py_getattr obj k) else None.
Proof.
  intros H Hok.
  destruct (scan_getattr obj (py_dir obj) Hok) as [Herr Hget].
  set (ps := fst (scan (getattr_pair obj) (py_dir obj))) in *.
  exists (update ps []). split.
  - unfold bind. rewrite (from_object_run _ _ _ _ H). rewrite Herr. simpl.
    fold ps.
    rewrite (get_namespace_run _ _ _ _ _ (update ps []))
      by now apply (lookup_after_insert _ _ []).
    rewrite length_insert, namespace_pairs_all.
    rewrite (update_copy (update ps [])); [reflexivity|].
    apply NoDup_keys_update. constructor.
  - intros k. rewrite getitem_update, Hget. unfold listed. simpl.
    now destruct (existsb (String.eqb k) (py_dir obj)); [destruct (returned _)|].
Qed.

Lemma from_object_get_namespace_round_trip_witness :
  [[]] !! 0 = Some ([] : dict) /\
  (forall k, In k (py_dir class_AB) -> exists v, py_getattr class_AB k = Return v) /\
  exists copy,
    (Config.from_object 0 class_AB ;;;
     Config.get_namespace 0 "" false false) [[]] =
    (Return 1, [copy; copy]) /\
    getitem "A" copy = Some (VInt 1) /\
    getitem "B" copy = Some (VStr "x") /\
    getitem "__doc__" copy = Some VNone /\
    getitem "C" copy = None.
Proof.
  assert (Hok : forall k, In k (py_dir class_AB) ->
                          exists v, py_getattr class_AB k = Return v).
  { intros k Hk. vm_compute in Hk.
    repeat (destruct Hk as [<-|Hk]; [eexists; vm_compute; reflexivity|]).
    destruct Hk. }
  split; [reflexivity|]. split; [exact Hok|].
  destruct (from_object_get_namespace_round_trip class_AB 0 [[]] eq_refl Hok)
    as (copy & Hrun & Hget).
  exists copy. split; [exact Hrun|].
  rewrite !Hget. repeat split.
Defined.

(** ** The file loaders *)

Section FileLoaders.

Variable w : World.

Implicit Types (r : receiver) (filepath : string) (silent : bool) (h : heap).

Lemma from_pyfile_missing r filepath silent h :
  path_exists w filepath = false ->
  Config.from_pyfile w r filepath silent h =
  (Raise (Exception (filepath +:+ " is not exists")), h).
Proof.
  intros He. unfold Config.from_pyfile, classmethod.
  destruct r; now rewrite He.
Qed.

Lemma from_json_missing r filepath silent h :
  path_exists w filepath = false ->
  Config.from_json w r filepath silent h =
  (Raise (Exception (filepath +:+ " is not exists")), h).
Proof.
  intros He. unfold Config.from_json, classmethod.
  destruct r; now rewrite He.
Qed.

Lemma from_pyfile_ioerror r filepath silent h errno strerror :
  path_exists w filepath = true ->
  read_bytes w filepath = Raise (IOError errno strerror) ->
  Config.from_pyfile w r filepath silent h = after_ioerror silent errno strerror h.
Proof.
  intros He Hr. unfold Config.from_pyfile, classmethod, after_ioerror.
  destruct r; rewrite He; simpl; unfold bind, try_except, lift; rewrite Hr;
    simpl; now destruct (silent && _)%bool.
Qed.

Lemma from_json_ioerror r filepath silent h errno strerror :
  path_exists w filepath = true ->
  read_text w filepath = Raise (IOError errno strerror) ->
  Config.from_json w r filepath silent h = after_ioerror silent errno strerror h.
Proof.
  intros He Hr. unfold Config.from_json, classmethod, after_ioerror.
  destruct r; rewrite He; simpl; unfold bind, try_except, lift; rewrite Hr;
    simpl; now destruct (silent && _)%bool.
Qed.

Lemma from_json_loads r filepath silent h text doc :
  path_exists w filepath = true ->
  read_text w filepath = Return text ->
  json_loads w text = Return (Mapping doc) ->
  Config.from_json w r filepath silent h =
  (Return (RetConfig (length h)), h ++ [update doc []]).
Proof.
  intros He Hr Hj. unfold Config.from_json, classmethod.
  assert (Hm := from_mapping_mapping (length h) doc [] (h ++ [[]]) []
                  (lookup_fresh h [])).
  destruct r as [[]|self]; rewrite He; simpl;
    unfold bind, try_except, lift; rewrite Hr, Hj; simpl;
    unfold bind, new_dict; simpl;
    match goal with
    | |- context [Config.from_mapping ?a ?b ?c ?hh] =>
        replace (Config.from_mapping a b c hh)
          with (Return true, <[length h := update [] (update doc [])]> (h ++ [[]]))
          by (symmetry; exact Hm)
    end;
    unfold ret; simpl; now rewrite insert_fresh.
Qed.

End FileLoaders.

(** C2, at a failing input: with [silent=True] and a path that does not
    exist, neither file loader returns [False]; the existence test that
    precedes the [try] makes both raise, although the [except] clause would
    return [False] for a missing file. *)
Theorem silent_missing_file_raises :
  path_exists example_world "/etc/absent.py" = false /\
  path_exists example_world "/etc/absent.json" = false /\
  fst (Config.from_pyfile example_world (OnClass ConfigClass) "/etc/absent.py" true [])
    <> Return RetFalse /\
  fst (Config.from_json example_world (OnClass ConfigClass) "/etc/absent.json" true [])
    <> Return RetFalse.
Proof. repeat split; vm_compute; discriminate. Qed.

(** What the two file loaders do when the file cannot be loaded: a path for
    which [os.path.exists] is false raises the not-found [Exception]
    whatever [silent] is; when the path exists and opening or reading it raises an
    [IOError], the call returns [False] if [silent] is set and the errno is
    ENOENT or EISDIR (a directory, or a file removed in between), and in
    every other case raises that [IOError], with its message rewritten, so
    that other I/O failures propagate whatever [silent] is. *)
Theorem file_loaders_failure_policy
    (w : World) (r : receiver) (filepath : string) (silent : bool) (h : heap) :
  (path_exists w filepath = false ->
   Config.from_pyfile w r filepath silent h =
   (Raise (Exception (filepath +:+ " is not exists")), h) /\
   Config.from_json w r filepath silent h =
   (Raise (Exception (filepath +:+ " is not exists")), h)) /\
  (path_exists w filepath = true ->
   forall errno strerror,
     (read_bytes w filepath = Raise (IOError errno strerror) ->
      Config.from_pyfile w r filepath silent h =
      after_ioerror silent errno strerror h) /\
     (read_text w filepath = Raise (IOError errno strerror) ->
      Config.from_json w r filepath silent h =
      after_ioerror silent errno strerror h)).
Proof.
  split.
  - intros He. split.
    + now apply from_pyfile_missing.
    + now apply from_json_missing.
  - intros He errno strerror. split; intros Hr.
    + now apply from_pyfile_ioerror.
    + now apply from_json_ioerror.
Qed.

Lemma file_loaders_failure_policy_witness :
  (path_exists example_world "/etc/absent.py" = false /\
   Config.from_pyfile example_world (OnClass ConfigClass) "/etc/absent.py" true [] =
   (Raise (Exception "/etc/absent.py is not exists"), [])) /\
  (path_exists example_world "/etc" = true /\
   read_bytes example_world "/etc" = Raise (IOError EISDIR "Is a directory") /\
   Config.from_pyfile example_world (OnClass ConfigClass) "/etc" true [] =
   (Return RetFalse, [])) /\
  (path_exists example_world "/etc/secret.json" = true /\
   read_text example_world "/etc/secret.json" =
   Raise (IOError EACCES "Permission denied") /\
   Config.from_json example_world (OnClass ConfigClass) "/etc/secret.json" true [] =
   (Raise (IOError EACCES "Unable to load configuration file (Permission denied)"),
    [])).
Proof.
  split; [|split].
  - split; [reflexivity|].
    exact (proj1 (proj1 (file_loaders_failure_policy example_world
                           (OnClass ConfigClass) "/etc/absent.py" true [])
                    eq_refl)).
  - split; [reflexivity|]. split; [reflexivity|].
    exact (proj1 (proj2 (file_loaders_failure_policy example_world
                           (OnClass ConfigClass) "/etc" true [])
                    eq_refl EISDIR "Is a directory") eq_refl).
  - split; [reflexivity|]. split; [reflexivity|].
    exact (proj2 (proj2 (file_loaders_failure_policy example_world
                           (OnClass ConfigClass) "/etc/secret.json" true [])
                    eq_refl EACCES "Permission denied") eq_refl).
Defined.

(** C1, at a failing input: [from_json] looked up on a store that holds
    log_level = 'info', with a file that binds log_level = 'debug' and
    log_file = ''.  The call succeeds and returns another object; the store
    it was invoked on does not get the bindings of the file. *)
Theorem from_json_leaves_receiver_unchanged :
  let h := [[("log_level", VStr "info")]] in
  let run := Config.from_json example_world (OnInstance 0) "/etc/app.json" false h in
  json_loads example_world app_json =
    Return (Mapping [("log_level", VStr "debug"); ("log_file", VStr "")]) /\
  fst run = Return (RetConfig 1) /\
  ~ (exists d, snd run !! 0 = Some d /\
               getitem "log_level" d = Some (VStr "debug") /\
               getitem "log_file" d = Some (VStr "")).
Proof.
  intros h run. split; [reflexivity|]. split; [reflexivity|].
  intros (d & Hd & Hlevel & _). vm_compute in Hd. injection Hd as <-.
  vm_compute in Hlevel. discriminate Hlevel.
Qed.

(** ** Further properties of [from_mapping] *)

Lemma keys_setitem_incl k k' v (d : dict) :
  In k (keys d) -> In k (keys (setitem k' v d)).
Proof.
  intros H. rewrite keys_setitem. destruct (getitem k' d); [assumption|].
  apply List.in_or_app. now left.
Qed.

Lemma keys_update_incl k ps : forall d : dict,
  In k (keys d) -> In k (keys (update ps d)).
Proof.
  unfold update. induction ps as [|[k' v'] ps IH]; intros d H; simpl.
  - assumption.
  - apply IH. now apply keys_setitem_incl.
Qed.

Lemma keys_setitem_present k v (d : dict) :
  In k (keys d) -> keys (setitem k v d) = keys d.
Proof.
  intros H. rewrite keys_setitem. destruct (getitem k d) eqn:E; [reflexivity|].
  apply getitem_None_keys in E. contradiction.
Qed.

Lemma keys_update_present ps : forall d : dict,
  (forall k, In k (keys ps) -> In k (keys d)) -> keys (update ps d) = keys d.
Proof.
  unfold update. induction ps as [|[k v] ps IH]; intros d H; simpl.
  - reflexivity.
  - rewrite IH.
    + apply keys_setitem_present. apply H. now left.
    + intros k' Hk'. apply keys_setitem_incl. apply H. now right.
Qed.

Lemma keys_update_written ps : forall (d : dict) k,
  In k (keys ps) -> In k (keys (update ps d)).
Proof.
  unfold update. induction ps as [|[k' v'] ps IH]; intros d k H; simpl in *.
  - contradiction.
  - destruct H as [<-|H].
    + apply keys_update_incl. rewrite keys_setitem.
      destruct (getitem k' d) eqn:E.
      * destruct (List.in_dec string_dec k' (keys d)) as [Hin|Hout]; [assumption|].
        apply getitem_None_keys in Hout. congruence.
      * apply List.in_or_app. right. now left.
    + now apply IH.
Qed.

Lemma scan_stops ps e rest :
  scan unpack (pairs_as_items ps ++ NotPair e :: rest) = (ps, Some e).
Proof.
  induction ps as [|[k v] ps IH]; simpl; [reflexivity|]. now rewrite IH.
Qed.

(** Whatever its arguments are, [from_mapping] returns [True] or raises,
    and all it does to the object store is a sequence of assignments to
    [self]. *)
Lemma from_mapping_shape (self : loc) (mapping : list pyarg) (kwargs : dict)
    (h : heap) (d : dict) :
  h !! self = Some d ->
  exists o ps,
    Config.from_mapping self mapping kwargs h = (o, <[self := update ps d]> h) /\
    (o = Return true \/ exists e, o = Raise e).
Proof.
  intros H. destruct mapping as [|a [|b rest]].
  - exists (Return true), kwargs. split; [|now left].
    now apply from_mapping_keywords.
  - destruct a as [m|[xs|e]].
    + exists (Return true), (m ++ kwargs). split; [|now left].
      rewrite update_app. now apply from_mapping_mapping.
    + rewrite (from_mapping_iterable _ _ _ _ _ H).
      destruct (scan unpack xs) as [ps [e|]]; simpl.
      * exists (Raise e), ps. split; [reflexivity|]. right. now exists e.
      * exists (Return true), (ps ++ kwargs). split; [|now left].
        now rewrite update_app.
    + exists (Raise e), []. split; [|right; now exists e].
      simpl. now rewrite list_insert_id.
  - eexists (Raise _), []. split; [|right; eexists; reflexivity].
    simpl. now rewrite list_insert_id.
Qed.

(** X1: when an element of the positional iterable does not unpack into a
    key and a value, [from_mapping] raises the unpacking error with the
    pairs before that element already written and none of the keyword
    arguments written; a positional argument that is not iterable raises
    with nothing written at all. *)
Theorem from_mapping_partial_failure
    (self : loc) (ps : list (string * value)) (e : exn) (rest : list item)
    (kwargs : dict) (h : heap) (d : dict) :
  h !! self = Some d ->
  Config.from_mapping self
    [Other (Items (pairs_as_items ps ++ NotPair e :: rest))] kwargs h =
  (Raise e, <[self := update ps d]> h) /\
  Config.from_mapping self [Other (NotIterable e)] kwargs h = (Raise e, h).
Proof.
  intros H. split; [|reflexivity].
  rewrite (from_mapping_iterable _ _ _ _ _ H). now rewrite scan_stops.
Qed.

Lemma from_mapping_partial_failure_witness :
  [[("a", VInt 0)]] !! 0 = Some [("a", VInt 0)] /\
  Config.from_mapping 0
    [Other (Items [Pair "a" (VInt 1); Pair "b" (VInt 2);
                   NotPair (ValueError "not enough values to unpack");
                   Pair "c" (VInt 3)])]
    [("z", VInt 9)] [[("a", VInt 0)]] =
  (Raise (ValueError "not enough values to unpack"),
   [[("a", VInt 1); ("b", VInt 2)]]).
Proof.
  split; [reflexivity|].
  exact (proj1 (from_mapping_partial_failure 0
                  [("a", VInt 1); ("b", VInt 2)]
                  (ValueError "not enough values to unpack")
                  [Pair "c" (VInt 3)] [("z", VInt 9)]
                  [[("a", VInt 0)]] [("a", VInt 0)] eq_refl)).
Defined.

(** X2: whatever its arguments are and whether it returns or raises,
    [from_mapping] never removes a key from the store, never makes a key
    occur twice, and never changes another object. *)
Theorem from_mapping_never_removes
    (self : loc) (mapping : list pyarg) (kwargs : dict) (h : heap) (d : dict) :
  h !! self = Some d ->
  exists o d',
    Config.from_mapping self mapping kwargs h = (o, <[self := d']> h) /\
    (forall k, In k (keys d) -> In k (keys d')) /\
    (List.NoDup (keys d) -> List.NoDup (keys d')) /\
    (forall l, l <> self -> <[self := d']> h !! l = h !! l).
Proof.
  intros H. destruct (from_mapping_shape self mapping kwargs h d H)
    as (o & ps & Hrun & _).
  exists o, (update ps d). split; [exact Hrun|]. repeat split.
  - intros k. apply keys_update_incl.
  - apply NoDup_keys_update.
  - intros l Hl. apply list_lookup_insert_ne. congruence.
Qed.

Lemma from_mapping_never_removes_witness :
  let h := [[("a", VInt 0); ("b", VInt 0)]; [("other", VNone)]] in
  h !! 0 = Some [("a", VInt 0); ("b", VInt 0)] /\
  exists o d',
    Config.from_mapping 0 [Other (Items [Pair "b" (VInt 1); NotPair (TypeError "int")])]
      [("c", VInt 2)] h = (o, <[0 := d']> h) /\
    (forall k, In k ["a"; "b"] -> In k (keys d')).
Proof.
  intros h. split; [reflexivity|].
  destruct (from_mapping_never_removes 0
              [Other (Items [Pair "b" (VInt 1); NotPair (TypeError "int")])]
              [("c", VInt 2)] h [("a", VInt 0); ("b", VInt 0)] eq_refl)
    as (o & d' & Hrun & Hkeys & _).
  exists o, d'. split; [exact Hrun | exact Hkeys].
Defined.

(** X3: loading the same source twice is the same as loading it once: after
    a second identical [from_mapping] call the store has the same keys in
    the same order with the same values as after the first. *)
Theorem from_mapping_idempotent (c : call) (self : loc) (h : heap) (d : dict) :
  h !! self = Some d ->
  accepted c = true ->
  exists d1 d2,
    run_calls self [c] h = (Return tt, <[self := d1]> h) /\
    run_calls self [c; c] h = (Return tt, <[self := d2]> h) /\
    keys d2 = keys d1 /\
    forall k, getitem k d2 = getitem k d1.
Proof.
  intros H Hc.
  set (ps := positional_pairs c ++ keywords c).
  assert (Hstep : forall h0 d0, h0 !! self = Some d0 ->
            Config.from_mapping self (positional c) (keywords c) h0 =
            (Return true, <[self := update ps d0]> h0)).
  { intros h0 d0 H0. unfold ps. rewrite update_app.
    now apply from_mapping_accepted. }
  exists (update ps d), (update ps (update ps d)).
  assert (H1 : <[self := update ps d]> h !! self = Some (update ps d))
    by now apply (lookup_after_insert _ _ d).
  repeat split.
  - unfold run_calls. simpl. unfold bind. rewrite (Hstep _ _ H). reflexivity.
  - unfold run_calls. simpl. unfold bind. rewrite (Hstep _ _ H).
    unfold ret at 1. cbv beta iota. rewrite (Hstep _ _ H1).
    unfold ret. now rewrite list_insert_insert_eq.
  - apply keys_update_present. intros k Hk. now apply keys_update_written.
  - intros k. rewrite !getitem_update. now destruct (last_binding k ps).
Qed.

Lemma from_mapping_idempotent_witness :
  let c := {| positional := [Mapping [("b", VInt 1); ("a", VInt 2)]];
              keywords := [("b", VInt 3)] |} in
  let h := [[("a", VInt 0)]] in
  h !! 0 = Some [("a", VInt 0)] /\ accepted c = true /\
  exists d1 d2,
    run_calls 0 [c] h = (Return tt, <[0 := d1]> h) /\
    run_calls 0 [c; c] h = (Return tt, <[0 := d2]> h) /\
    keys d2 = keys d1 /\
    forall k, getitem k d2 = getitem k d1.
Proof.
  intros c h. split; [reflexivity|]. split; [reflexivity|].
  exact (from_mapping_idempotent c 0 h [("a", VInt 0)] eq_refl eq_refl).
Defined.

(** ** Further properties of [get_namespace] *)

Lemma keys_update_from ps : forall (d : dict) k,
  In k (keys (update ps d)) -> In k (keys d) \/ In k (keys ps).
Proof.
  unfold update. induction ps as [|[k' v'] ps IH]; intros d k H; simpl in *.
  - now left.
  - apply IH in H. destruct H as [H|H]; [|now right; right].
    rewrite keys_setitem in H. destruct (getitem k' d); [now left|].
    apply List.in_app_or in H. destruct H as [H|[<-|[]]]; [now left|].
    right. now left.
Qed.

Lemma namespace_pairs_app namespace (lowercase trim_namespace : bool) (d1 d2 : dict) :
  namespace_pairs namespace lowercase trim_namespace (d1 ++ d2) =
  namespace_pairs namespace lowercase trim_namespace d1 ++
  namespace_pairs namespace lowercase trim_namespace d2.
Proof.
  unfold namespace_pairs. now rewrite List.filter_app, List.map_app.
Qed.

Lemma namespace_pairs_keys namespace (lowercase trim_namespace : bool) (d : dict) k' :
  In k' (keys (namespace_pairs namespace lowercase trim_namespace d)) <->
  exists k v, In (k, v) d /\ startswith k namespace = true /\
              namespace_key namespace lowercase trim_namespace k = k'.
Proof.
  unfold keys, namespace_pairs. rewrite List.map_map. simpl.
  rewrite List.in_map_iff. split.
  - intros ([k v] & Hk & Hin). apply List.filter_In in Hin. simpl in *.
    exists k, v. tauto.
  - intros (k & v & Hin & Hs & Hk). exists (k, v). split; [exact Hk|].
    apply List.filter_In. tauto.
Qed.

Lemma last_binding_None k ps : last_binding k ps = None <-> ~ In k (keys ps).
Proof.
  induction ps as [|[k' v'] ps IH]; simpl.
  - tauto.
  - destruct (last_binding k ps) eqn:E.
    + split; [discriminate|]. intros H. exfalso. apply H. right.
      destruct (List.in_dec string_dec k (keys ps)) as [Hin|Hout]; [assumption|].
      apply IH in Hout. discriminate.
    + destruct (String.eqb_spec k k') as [->|Hne].
      * split; [discriminate|]. intros H. exfalso. apply H. now left.
      * split; [|reflexivity]. intros _ [Heq|Hin]; [congruence|].
        now apply (proj1 IH).
Qed.

(** X4: [get_namespace] never changes an existing object: its result is a
    newly allocated dictionary.  The keys of the result are unique, and they
    are exactly the images, under trimming and lowercasing as the flags say,
    of the keys of the store that start with the namespace.  With
    [lowercase] set this is stated for a store whose keys are ASCII, on
    which [lower] is [str.lower]. *)
Theorem get_namespace_selects
    (self : loc) (namespace : string) (lowercase trim_namespace : bool)
    (h : heap) (d : dict) :
  h !! self = Some d ->
  (lowercase = true -> Forall (fun k => is_ascii k = true) (keys d)) ->
  exists rv_d,
    Config.get_namespace self namespace lowercase trim_namespace h =
    (Return (length h), h ++ [rv_d]) /\
    List.NoDup (keys rv_d) /\
    forall k', In k' (keys rv_d) <->
               exists k v, In (k, v) d /\ startswith k namespace = true /\
                           namespace_key namespace lowercase trim_namespace k = k'.
Proof.
  intros H _.
  exists (update (namespace_pairs namespace lowercase trim_namespace d) []).
  split; [now apply get_namespace_run|]. split.
  - apply NoDup_keys_update. constructor.
  - intros k'. rewrite <- namespace_pairs_keys. split.
    + intros Hin. apply keys_update_from in Hin. now destruct Hin.
    + apply keys_update_written.
Qed.

Lemma get_namespace_selects_witness :
  let d := [("DB_HOST", VStr "h"); ("DEBUG", VBool true); ("DB_Port", VInt 5432)] in
  [d] !! 0 = Some d /\
  Forall (fun k => is_ascii k = true) (keys d) /\
  exists rv_d,
    Config.get_namespace 0 "DB_" true true [d] = (Return 1, [d] ++ [rv_d]) /\
    List.NoDup (keys rv_d) /\
    (In "port" (keys rv_d) <->
     exists k v, In (k, v) d /\ startswith k "DB_" = true /\
                 namespace_key "DB_" true true k = "port").
Proof.
  intros d.
  assert (Hascii : Forall (fun k => is_ascii k = true) (keys d))
    by (repeat constructor).
  split; [reflexivity|]. split; [exact Hascii|].
  destruct (get_namespace_selects 0 "DB_" true true [d] d eq_refl
              (fun _ => Hascii))
    as (rv_d & Hrun & Hnodup & Hkeys).
  exists rv_d. split; [exact Hrun|]. split; [exact Hnodup | apply Hkeys].
Defined.

(** X5: when several keys of the store are mapped to the same result key
    (keys that differ in the case of their letters, with [lowercase] set),
    the one iterated last wins: the result binds the key to the value of
    the last entry of the store that is mapped to it.  With [lowercase] set
    this is stated for a store whose keys are ASCII, on which [lower] is
    [str.lower]. *)
Theorem get_namespace_last_wins
    (self : loc) (namespace : string) (lowercase trim_namespace : bool)
    (h : heap) (d1 d2 : dict) (k : string) (v : value) :
  h !! self = Some (d1 ++ (k, v) :: d2) ->
  (lowercase = true ->
   Forall (fun k0 => is_ascii k0 = true) (keys (d1 ++ (k, v) :: d2))) ->
  startswith k namespace = true ->
  (forall k2 v2, In (k2, v2) d2 -> startswith k2 namespace = true ->
     namespace_key namespace lowercase trim_namespace k2 <>
     namespace_key namespace lowercase trim_namespace k) ->
  exists rv_d,
    Config.get_namespace self namespace lowercase trim_namespace h =
    (Return (length h), h ++ [rv_d]) /\
    getitem (namespace_key namespace lowercase trim_namespace k) rv_d = Some v.
Proof.
  intros H _ Hk Hlast.
  exists (update (namespace_pairs namespace lowercase trim_namespace
                    (d1 ++ (k, v) :: d2)) []).
  split; [now apply get_namespace_run|].
  rewrite getitem_update.
  change (d1 ++ (k, v) :: d2) with (d1 ++ [(k, v)] ++ d2).
  rewrite !namespace_pairs_app, !last_binding_app.
  assert (Hnone : last_binding (namespace_key namespace lowercase trim_namespace k)
                    (namespace_pairs namespace lowercase trim_namespace d2) = None).
  { apply last_binding_None. intros Hin. apply namespace_pairs_keys in Hin.
    destruct Hin as (k2 & v2 & Hin & Hs & Heq). now apply (Hlast k2 v2). }
  rewrite Hnone. unfold namespace_pairs at 1. simpl. rewrite Hk. simpl.
  now rewrite String.eqb_refl.
Qed.

Lemma get_namespace_last_wins_witness :
  let d := [("APP_Name", VInt 1); ("OTHER", VInt 0); ("APP_NAME", VInt 2);
            ("APP_port", VInt 3)] in
  [d] !! 0 = Some ([("APP_Name", VInt 1); ("OTHER", VInt 0)]
                   ++ ("APP_NAME", VInt 2) :: [("APP_port", VInt 3)]) /\
  Forall (fun k0 => is_ascii k0 = true) (keys d) /\
  startswith "APP_NAME" "APP_" = true /\
  exists rv_d,
    Config.get_namespace 0 "APP_" true true [d] = (Return 1, [d] ++ [rv_d]) /\
    getitem "name" rv_d = Some (VInt 2).
Proof.
  intros d.
  assert (Hascii : Forall (fun k0 => is_ascii k0 = true) (keys d))
    by (repeat constructor).
  split; [reflexivity|]. split; [exact Hascii|]. split; [reflexivity|].
  apply (get_namespace_last_wins 0 "APP_" true true [d]
           [("APP_Name", VInt 1); ("OTHER", VInt 0)] [("APP_port", VInt 3)]
           "APP_NAME" (VInt 2) eq_refl (fun _ => Hascii) eq_refl).
  intros k2 v2 [Heq|[]] _. injection Heq as <- <-. vm_compute. discriminate.
Defined.

(** X6: when no key of the store starts with the namespace, the result is a
    new empty dictionary. *)
Theorem get_namespace_no_match
    (self : loc) (namespace : string) (lowercase trim_namespace : bool)
    (h : heap) (d : dict) :
  h !! self = Some d ->
  (forall k, In k (keys d) -> startswith k namespace = false) ->
  Config.get_namespace self namespace lowercase trim_namespace h =
  (Return (length h), h ++ [[]]).
Proof.
  intros H Hno. rewrite (get_namespace_run _ _ _ _ _ _ H).
  assert (Hnil : namespace_pairs namespace lowercase trim_namespace d = []).
  { unfold namespace_pairs. clear H. induction d as [|[k v] d IH]; [reflexivity|].
    simpl. rewrite (Hno k) by now left. apply IH.
    intros k' Hk'. apply Hno. now right. }
  now rewrite Hnil.
Qed.

Lemma get_namespace_no_match_witness :
  let d := [("DEBUG", VBool true); ("image_store_type", VStr "fs")] in
  [d] !! 0 = Some d /\
  (forall k, In k (keys d) -> startswith k "IMAGE_STORE_" = false) /\
  Config.get_namespace 0 "IMAGE_STORE_" true true [d] = (Return 1, [d] ++ [[]]).
Proof.
  intros d.
  assert (Hno : forall k, In k (keys d) -> startswith k "IMAGE_STORE_" = false).
  { intros k [<-|[<-|[]]]; reflexivity. }
  split; [reflexivity|]. split; [exact Hno|].
  exact (get_namespace_no_match 0 "IMAGE_STORE_" true true [d] d eq_refl Hno).
Defined.

Lemma startswith_app (namespace k' : string) :
  startswith (namespace +:+ k') namespace = true.
Proof.
  unfold startswith. induction namespace as [|a ns IH]; simpl.
  - now destruct k'.
  - destruct (ascii_dec a a); [exact IH|congruence].
Qed.

Lemma slice_from_app (namespace k' : string) :
  slice_from (String.length namespace) (namespace +:+ k') = k'.
Proof. induction namespace as [|a ns IH]; simpl; [now destruct k'|exact IH]. Qed.

Lemma startswith_slice (namespace : string) : forall k,
  startswith k namespace = true ->
  namespace +:+ slice_from (String.length namespace) k = k.
Proof.
  unfold startswith. induction namespace as [|a ns IH]; intros k H; simpl in *.
  - now destruct k.
  - destruct k as [|b k]; simpl in H; [discriminate|].
    destruct (ascii_dec a b) as [->|]; [|discriminate].
    simpl. rewrite <- (IH k H) at 2. reflexivity.
Qed.

Lemma lower_ascii_idempotent c : lower_ascii (lower_ascii c) = lower_ascii c.
Proof. destruct c as [[] [] [] [] [] [] [] []]; reflexivity. Qed.

Lemma lower_idempotent s : lower (lower s) = lower s.
Proof.
  induction s as [|c s IH]; simpl; [reflexivity|].
  now rewrite lower_ascii_idempotent, IH.
Qed.

(** The selected pairs of a store with unique keys, looked up through an
    inverse [g] of the key transformation. *)
Lemma last_binding_namespace_pairs namespace (lowercase trim_namespace : bool)
    (g : string -> string) :
  (forall k, startswith k namespace = true ->
             g (namespace_key namespace lowercase trim_namespace k) = k) ->
  (forall k', startswith (g k') namespace = true ->
              namespace_key namespace lowercase trim_namespace (g k') = k') ->
  forall (d : dict) k', List.NoDup (keys d) ->
    last_binding k' (namespace_pairs namespace lowercase trim_namespace d) =
    if startswith (g k') namespace then getitem (g k') d else None.
Proof.
  intros Hgf Hfg. induction d as [|[k v] d IH]; intros k' Hd.
  - simpl. now destruct (startswith (g k') namespace).
  - inversion Hd as [|x xs Hk Hd']; subst.
    change ((k, v) :: d) with ([(k, v)] ++ d).
    rewrite namespace_pairs_app, last_binding_app, (IH k' Hd').
    unfold namespace_pairs at 1. cbn [List.filter map fst snd getitem app].
    destruct (startswith k namespace) eqn:Hs; cbn [map last_binding fst snd].
    + destruct (String.eqb_spec k' (namespace_key namespace lowercase trim_namespace k))
        as [->|Hne].
      * rewrite (Hgf k Hs), Hs, String.eqb_refl.
        apply getitem_None_keys in Hk. now rewrite Hk.
      * destruct (startswith (g k') namespace) eqn:Hs'; [|reflexivity].
        destruct (String.eqb_spec (g k') k) as [E|E].
        -- exfalso. apply Hne. rewrite <- E. symmetry. now apply Hfg.
        -- now destruct (getitem (g k') d).
    + destruct (startswith (g k') namespace) eqn:Hs'; [|reflexivity].
      destruct (String.eqb_spec (g k') k) as [E|E]; [congruence|].
      now destruct (getitem (g k') d).
Qed.

(** X7: trimming is undone by putting the namespace back.  With
    [lowercase=False], on a store with unique keys, the result of
    [get_namespace] binds a key exactly when the store binds the namespace
    followed by that key, and to the same value. *)
Theorem get_namespace_trim_round_trip
    (self : loc) (namespace : string) (h : heap) (d : dict) :
  h !! self = Some d ->
  List.NoDup (keys d) ->
  exists rv_d,
    Config.get_namespace self namespace false true h =
    (Return (length h), h ++ [rv_d]) /\
    forall k', getitem k' rv_d = getitem (namespace +:+ k') d.
Proof.
  intros H Hd. exists (update (namespace_pairs namespace false true d) []).
  split; [now apply get_namespace_run|].
  intros k'. rewrite getitem_update.
  rewrite (last_binding_namespace_pairs namespace false true
             (fun k' => namespace +:+ k')).
  - rewrite startswith_app. now destruct (getitem (namespace +:+ k') d).
  - intros k Hs. unfold namespace_key. now apply startswith_slice.
  - intros k0 _. unfold namespace_key. apply slice_from_app.
  - exact Hd.
Qed.

Lemma get_namespace_trim_round_trip_witness :
  let d := [("DB_Host", VStr "h"); ("DEBUG", VBool true); ("DB_", VInt 0)] in
  [d] !! 0 = Some d /\ List.NoDup (keys d) /\
  exists rv_d,
    Config.get_namespace 0 "DB_" false true [d] = (Return 1, [d] ++ [rv_d]) /\
    forall k', getitem k' rv_d = getitem ("DB_" +:+ k') d.
Proof.
  intros d.
  assert (Hd : List.NoDup (keys d)).
  { repeat constructor; simpl; intuition discriminate. }
  split; [reflexivity|]. split; [exact Hd|].
  exact (get_namespace_trim_round_trip 0 "DB_" [d] d eq_refl Hd).
Defined.

(** X8: with both flags off, on a store with unique keys, the result of
    [get_namespace] is the store restricted to the keys that start with the
    namespace: those keys keep their values, and no other key is bound. *)
Theorem get_namespace_restricts
    (self : loc) (namespace : string) (h : heap) (d : dict) :
  h !! self = Some d ->
  List.NoDup (keys d) ->
  exists rv_d,
    Config.get_namespace self namespace false false h =
    (Return (length h), h ++ [rv_d]) /\
    forall k, getitem k rv_d =
              if startswith k namespace then getitem k d else None.
Proof.
  intros H Hd. exists (update (namespace_pairs namespace false false d) []).
  split; [now apply get_namespace_run|].
  intros k. rewrite getitem_update.
  rewrite (last_binding_namespace_pairs namespace false false (fun k => k));
    auto.
  now destruct (startswith k namespace); [destruct (getitem k d)|].
Qed.

Lemma get_namespace_restricts_witness :
  let d := [("DB_Host", VStr "h"); ("DEBUG", VBool true)] in
  [d] !! 0 = Some d /\ List.NoDup (keys d) /\
  exists rv_d,
    Config.get_namespace 0 "DB_" false false [d] = (Return 1, [d] ++ [rv_d]) /\
    forall k, getitem k rv_d = if startswith k "DB_" then getitem k d else None.
Proof.
  intros d.
  assert (Hd : List.NoDup (keys d)).
  { repeat constructor; simpl; intuition discriminate. }
  split; [reflexivity|]. split; [exact Hd|].
  exact (get_namespace_restricts 0 "DB_" [d] d eq_refl Hd).
Defined.

(** X9: with [lowercase=True], lowercasing a key of the result of
    [get_namespace] changes nothing: no result key has an upper-case ASCII
    letter. *)
Theorem get_namespace_keys_lowercase
    (self : loc) (namespace : string) (trim_namespace : bool)
    (h : heap) (d : dict) :
  h !! self = Some d ->
  exists rv_d,
    Config.get_namespace self namespace true trim_namespace h =
    (Return (length h), h ++ [rv_d]) /\
    forall k', In k' (keys rv_d) -> lower k' = k'.
Proof.
  intros H. exists (update (namespace_pairs namespace true trim_namespace d) []).
  split; [now apply get_namespace_run|].
  intros k' Hin. apply keys_update_from in Hin. destruct Hin as [[]|Hin].
  apply namespace_pairs_keys in Hin. destruct Hin as (k & v & _ & _ & <-).
  unfold namespace_key. apply lower_idempotent.
Qed.

Lemma get_namespace_keys_lowercase_witness :
  let d := [("DB_Host", VStr "h"); ("DB_PORT_9", VInt 1)] in
  [d] !! 0 = Some d /\
  exists rv_d,
    Config.get_namespace 0 "DB_" true false [d] = (Return 1, [d] ++ [rv_d]) /\
    forall k', In k' (keys rv_d) -> lower k' = k'.
Proof.
  intros d. split; [reflexivity|].
  exact (get_namespace_keys_lowercase 0 "DB_" false [d] d eq_refl).
Defined.

(** ** Further properties of [ConfigAttribute] *)

(** X10: a value written through the descriptor is stored as it is, and a
    read through any owner that holds the same store returns it, passed
    through the converter if the descriptor has one; an exception of the
    converter is the exception of the read.  The write changes that one
    key of that one store. *)
Theorem ConfigAttribute_set_get
    (name : string) (conv : option (value -> outcome value))
    (obj obj' : ConfigAttribute.owner) (v : value) (h : heap) (d : dict) :
  h !! ConfigAttribute.config obj = Some d ->
  ConfigAttribute.config obj' = ConfigAttribute.config obj ->
  (ConfigAttribute.__set__ (ConfigAttribute.__init__ name conv) obj v ;;;
   ConfigAttribute.__get__ (ConfigAttribute.__init__ name conv) (Some obj')) h =
  (match conv with
   | None => Return (ConfigAttribute.GotValue v)
   | Some f =>
       match f v with
       | Return v' => Return (ConfigAttribute.GotValue v')
       | Raise e => Raise e
       end
   end,
   <[ConfigAttribute.config obj := setitem name v d]> h).
Proof.
  intros H Hsame. unfold bind, ConfigAttribute.__set__, ConfigAttribute.__get__.
  cbn [ConfigAttribute.__init__ ConfigAttribute.__name__
       ConfigAttribute.get_converter].
  rewrite (dict_setitem_run _ _ _ _ _ H). rewrite Hsame. unfold bind.
  rewrite (dict_getitem_run _ _ _ (setitem name v d))
    by now apply (lookup_after_insert _ _ d).
  rewrite getitem_setitem_eq.
  destruct conv as [f|]; [|reflexivity].
  unfold lift, ret. now destruct (f v).
Qed.

Lemma ConfigAttribute_set_get_witness :
  let obj := {| ConfigAttribute.config := 0 |} in
  let conv := Some (fun v : value =>
                match v with
                | VStr "1" => Return (VBool true)
                | _ => Raise (ValueError "not a flag")
                end) in
  let h := [[("DEBUG", VNone)]] in
  h !! ConfigAttribute.config obj = Some [("DEBUG", VNone)] /\
  (ConfigAttribute.__set__ (ConfigAttribute.__init__ "DEBUG" conv) obj (VStr "1") ;;;
   ConfigAttribute.__get__ (ConfigAttribute.__init__ "DEBUG" conv) (Some obj)) h =
  (Return (ConfigAttribute.GotValue (VBool true)), [[("DEBUG", VStr "1")]]).
Proof.
  intros obj conv h. split; [reflexivity|].
  exact (ConfigAttribute_set_get "DEBUG" conv obj obj (VStr "1") h
           [("DEBUG", VNone)] eq_refl eq_refl).
Defined.

(** X11: a read through a descriptor never changes the object store, and a
    write through a descriptor bound to another key does not change what
    the read returns. *)
Theorem ConfigAttribute_independent
    (a1 a2 : ConfigAttribute.t) (obj : ConfigAttribute.owner) (v : value)
    (h : heap) (d : dict) :
  h !! ConfigAttribute.config obj = Some d ->
  ConfigAttribute.__name__ a1 <> ConfigAttribute.__name__ a2 ->
  snd (ConfigAttribute.__get__ a2 (Some obj) h) = h /\
  fst (ConfigAttribute.__get__ a2 (Some obj)
         (snd (ConfigAttribute.__set__ a1 obj v h))) =
  fst (ConfigAttribute.__get__ a2 (Some obj) h).
Proof.
  intros H Hne.
  assert (Hget : forall h0 d0, h0 !! ConfigAttribute.config obj = Some d0 ->
            ConfigAttribute.__get__ a2 (Some obj) h0 =
            (match getitem (ConfigAttribute.__name__ a2) d0 with
             | None => Raise (KeyError (ConfigAttribute.__name__ a2))
             | Some rv =>
                 match ConfigAttribute.get_converter a2 with
                 | None => Return (ConfigAttribute.GotValue rv)
                 | Some f =>
                     match f rv with
                     | Return v' => Return (ConfigAttribute.GotValue v')
                     | Raise e => Raise e
                     end
                 end
             end, h0)).
  { intros h0 d0 H0. unfold ConfigAttribute.__get__, bind.
    rewrite (dict_getitem_run _ _ _ _ H0).
    destruct (getitem (ConfigAttribute.__name__ a2) d0) as [rv|]; [|reflexivity].
    destruct (ConfigAttribute.get_converter a2) as [f|]; [|reflexivity].
    unfold lift, ret. now destruct (f rv). }
  split.
  - now rewrite (Hget _ _ H).
  - unfold ConfigAttribute.__set__. rewrite (dict_setitem_run _ _ _ _ _ H).
    cbn [snd].
    rewrite (Hget _ (setitem (ConfigAttribute.__name__ a1) v d))
      by now apply (lookup_after_insert _ _ d).
    rewrite (Hget _ _ H). cbn [fst].
    now rewrite getitem_setitem_ne.
Qed.

Lemma ConfigAttribute_independent_witness :
  let a1 := ConfigAttribute.__init__ "DEBUG" None in
  let a2 := ConfigAttribute.__init__ "SECRET_KEY" None in
  let obj := {| ConfigAttribute.config := 0 |} in
  let h := [[("SECRET_KEY", VStr "s")]] in
  h !! ConfigAttribute.config obj = Some [("SECRET_KEY", VStr "s")] /\
  ConfigAttribute.__name__ a1 <> ConfigAttribute.__name__ a2 /\
  fst (ConfigAttribute.__get__ a2 (Some obj)
         (snd (ConfigAttribute.__set__ a1 obj (VBool true) h))) =
  Return (ConfigAttribute.GotValue (VStr "s")).
Proof.
  intros a1 a2 obj h.
  assert (Hne : ConfigAttribute.__name__ a1 <> ConfigAttribute.__name__ a2)
    by discriminate.
  split; [reflexivity|]. split; [exact Hne|].
  exact (proj2 (ConfigAttribute_independent a1 a2 obj (VBool true) h
                  [("SECRET_KEY", VStr "s")] eq_refl Hne)).
Defined.

(** ** Further properties of [from_object] *)

Lemma scan_app {A} (f : A -> outcome (string * value)) (xs ys : list A) :
  snd (scan f xs) = None ->
  scan f (xs ++ ys) = (fst (scan f xs) ++ fst (scan f ys), snd (scan f ys)).
Proof.
  induction xs as [|x xs IH]; simpl.
  - intros _. now destruct (scan f ys).
  - destruct (f x) as [kv|e]; [|discriminate].
    destruct (scan f xs) as [ps err]. simpl in *. intros ->.
    rewrite (IH eq_refl). reflexivity.
Qed.

(** X12: on any store, when [getattr] succeeds for every name [dir] lists,
    [from_object] returns with every listed name bound to its attribute
    value, overwriting what the store had for it, and every other key as
    it was. *)
Theorem from_object_overwrites
    (obj : pyobject) (self : loc) (h : heap) (d : dict) :
  h !! self = Some d ->
  (forall k, In k (py_dir obj) -> exists v, py_getattr obj k = Return v) ->
  exists d',
    Config.from_object self obj h = (Return tt, <[self := d']> h) /\
    forall k, getitem k d' =
              if listed obj k then returned (py_getattr obj k) else getitem k d.
Proof.
  intros H Hok. destruct (scan_getattr obj (py_dir obj) Hok) as [Herr Hget].
  exists (update (fst (scan (getattr_pair obj) (py_dir obj))) d). split.
  - rewrite (from_object_run _ _ _ _ H). now rewrite Herr.
  - intros k. rewrite getitem_update, Hget. unfold listed.
    destruct (existsb (String.eqb k) (py_dir obj)) eqn:E; [|reflexivity].
    apply existsb_eqb_In in E. destruct (Hok k E) as [v ->]. reflexivity.
Qed.

Lemma from_object_overwrites_witness :
  let d := [("A", VInt 0); ("keep", VStr "k")] in
  [d] !! 0 = Some d /\
  (forall k, In k (py_dir class_AB) -> exists v, py_getattr class_AB k = Return v) /\
  exists d',
    Config.from_object 0 class_AB [d] = (Return tt, <[0 := d']> [d]) /\
    getitem "A" d' = Some (VInt 1) /\ getitem "keep" d' = Some (VStr "k").
Proof.
  intros d.
  assert (Hok : forall k, In k (py_dir class_AB) ->
                          exists v, py_getattr class_AB k = Return v).
  { intros k Hk. vm_compute in Hk.
    repeat (destruct Hk as [<-|Hk]; [eexists; vm_compute; reflexivity|]).
    destruct Hk. }
  split; [reflexivity|]. split; [exact Hok|].
  destruct (from_object_overwrites class_AB 0 [d] d eq_refl Hok)
    as (d' & Hrun & Hget).
  exists d'. split; [exact Hrun|]. rewrite !Hget. split; reflexivity.
Defined.

(** X13: when [getattr] raises for a name [dir] lists, [from_object] raises
    that exception; the names listed before it are already written, the
    names after it are not looked at, and no other key changes. *)
Theorem from_object_partial_failure
    (obj : pyobject) (names1 names2 : list string) (n : string) (e : exn)
    (self : loc) (h : heap) (d : dict) :
  h !! self = Some d ->
  py_dir obj = names1 ++ n :: names2 ->
  (forall k, In k names1 -> exists v, py_getattr obj k = Return v) ->
  py_getattr obj n = Raise e ->
  exists d',
    Config.from_object self obj h = (Raise e, <[self := d']> h) /\
    forall k, getitem k d' =
              if existsb (String.eqb k) names1
              then returned (py_getattr obj k) else getitem k d.
Proof.
  intros H Hdir Hok Hn.
  destruct (scan_getattr obj names1 Hok) as [Herr Hget].
  exists (update (fst (scan (getattr_pair obj) names1)) d).
  assert (Hscan : scan (getattr_pair obj) (py_dir obj) =
                  (fst (scan (getattr_pair obj) names1), Some e)).
  { assert (Hpair : getattr_pair obj n = Raise e)
      by (unfold getattr_pair; now rewrite Hn).
    rewrite Hdir, (scan_app _ _ _ Herr). simpl. rewrite Hpair. simpl.
    now rewrite List.app_nil_r. }
  split.
  - rewrite (from_object_run _ _ _ _ H). now rewrite Hscan.
  - intros k. rewrite getitem_update, Hget.
    destruct (existsb (String.eqb k) names1) eqn:E; [|reflexivity].
    apply existsb_eqb_In in E. destruct (Hok k E) as [v ->]. reflexivity.
Qed.

Lemma from_object_partial_failure_witness :
  let obj := {| py_dir := ["A"; "B"; "C"];
                py_getattr := fun k =>
                  if String.eqb k "B" then Raise (AttributeError "B")
                  else Return (VStr k) |} in
  let d := [("C", VInt 0)] in
  [d] !! 0 = Some d /\
  exists d',
    Config.from_object 0 obj [d] = (Raise (AttributeError "B"), <[0 := d']> [d]) /\
    getitem "A" d' = Some (VStr "A") /\ getitem "C" d' = Some (VInt 0).
Proof.
  intros obj d. split; [reflexivity|].
  assert (Hok : forall k, In k ["A"] -> exists v, py_getattr obj k = Return v).
  { intros k [<-|[]]. now exists (VStr "A"). }
  destruct (from_object_partial_failure obj ["A"] ["C"] "B" (AttributeError "B")
              0 [d] d eq_refl eq_refl Hok eq_refl) as (d' & Hrun & Hget).
  exists d'. split; [exact Hrun|]. rewrite !Hget. split; reflexivity.
Defined.

(** ** Further properties of the file loaders *)

(** The [except IOError] clause either makes the loader return [False],
    which takes [silent] and an [IOError] for a missing file or a directory,
    or raises. *)
Lemma on_ioerror_cases {A} (silent : bool) (e : exn) (h : heap) :
  (@Config.on_ioerror A silent e h = (Return (inl tt), h) /\ silent = true /\
   exists errno strerror, e = IOError errno strerror /\
                          (errno = ENOENT \/ errno = EISDIR)) \/
  (exists e', @Config.on_ioerror A silent e h = (Raise e', h)).
Proof.
  destruct e; try (right; eexists; reflexivity).
  unfold Config.on_ioerror.
  destruct silent; simpl; [|right; eexists; reflexivity].
  destruct (Z.eqb_spec errno ENOENT) as [->|H1]; simpl.
  { left. repeat split. eexists _, _. split; [reflexivity|now left]. }
  destruct (Z.eqb_spec errno EISDIR) as [->|H2]; simpl.
  { left. repeat split. eexists _, _. split; [reflexivity|now right]. }
  right. eexists. reflexivity.
Qed.

Ltac loader_failed A silent e h :=
  destruct (@on_ioerror_cases A silent e h) as [(-> & ? & _)|[? ->]];
  [ exists (Return RetFalse), h; split; [reflexivity|];
    left; repeat split; [discriminate|auto]
  | eexists (Raise _), h; split; [reflexivity|];
    left; repeat split; discriminate ].

Lemma from_json_shape (w : World) (r : receiver) (filepath : string)
    (silent : bool) (h : heap) :
  exists o h',
    Config.from_json w r filepath silent h = (o, h') /\
    ((h' = h /\ (forall cfg, o <> Return (RetConfig cfg)) /\
      (o = Return RetFalse -> silent = true)) \/
     (exists d, h' = h ++ [d] /\
                (o = Return (RetConfig (length h)) \/ exists e, o = Raise e))).
Proof.
  unfold Config.from_json, classmethod.
  destruct r as [[]|self]; destruct (path_exists w filepath); cbn [negb];
    try (eexists _, h; split; [reflexivity|]; left; repeat split; discriminate).
  all: unfold bind at 1, try_except, bind at 1, lift at 1;
    destruct (read_text w filepath) as [text|e];
    [|loader_failed pyarg silent e h];
    unfold bind at 1, lift at 1;
    destruct (json_loads w text) as [obj|e];
    [|loader_failed pyarg silent e h];
    unfold ret at 1; cbv beta iota;
    destruct (from_mapping_shape (length h) [obj] [] (h ++ [[]]) []
                (lookup_fresh h [])) as (o' & ps & Hm & Ho');
    rewrite insert_fresh in Hm;
    unfold bind, load_name, new_dict; simpl;
    match goal with
    | |- context [Config.from_mapping ?a ?b ?c ?hh] =>
        replace (Config.from_mapping a b c hh)
          with (o', h ++ [update ps []]) by (symmetry; exact Hm)
    end;
    destruct Ho' as [->|[e ->]];
    eexists _, _; (split; [reflexivity|]); right; eexists;
      (split; [reflexivity|]); [now left | right; now exists e].
Qed.

(** X14: whatever the file system, the content of the file, the arguments
    and the outcome, [from_json] leaves every existing object as it is; a
    returned [Config] is a newly allocated object, and [False] is returned
    only when [silent] is set, with nothing allocated.  ([from_pyfile] runs
    the code of the file, which may do anything to the objects that
    exist.) *)
Theorem from_json_only_allocates
    (w : World) (r : receiver) (filepath : string) (silent : bool) (h : heap) :
  exists o h',
    Config.from_json w r filepath silent h = (o, h') /\
    (forall l d0, h !! l = Some d0 -> h' !! l = Some d0) /\
    (forall cfg, o = Return (RetConfig cfg) ->
       cfg = length h /\ exists d, h' = h ++ [d]) /\
    (o = Return RetFalse -> silent = true /\ h' = h).
Proof.
  destruct (from_json_shape w r filepath silent h) as (o & h' & Hrun & Hcases).
  exists o, h'. split; [exact Hrun|].
  destruct Hcases as [(-> & Hno & Hfalse)|(d & -> & Ho)].
  - split; [auto|split].
    + intros cfg Hcfg. now destruct (Hno cfg).
    + intros Hf. split; [auto|reflexivity].
  - split; [intros l d0; apply lookup_old|split].
    + intros cfg Hcfg. destruct Ho as [->|[e ->]]; [|discriminate].
      injection Hcfg as <-. split; [reflexivity|now exists d].
    + intros Hf. destruct Ho as [->|[e ->]]; discriminate.
Qed.

(** X15: [from_pyfile] treats an [IOError] raised by the executed file
    itself like a failure to open the file: with [silent] and errno ENOENT
    or EISDIR the call returns [False], otherwise the error is raised with
    its message rewritten; in both cases no [Config] is created, and the
    object store is as the executed code left it. *)
Theorem from_pyfile_exec_ioerror
    (w : World) (r : receiver) (filepath source : string) (silent : bool)
    (h h' : heap) (errno : Z) (strerror : string) :
  path_exists w filepath = true ->
  read_bytes w filepath = Return source ->
  exec_compile w source filepath
    (setitem "__file__" (VStr filepath) (ModuleType "config")) h =
    (Raise (IOError errno strerror), h') ->
  Config.from_pyfile w r filepath silent h = after_ioerror silent errno strerror h'.
Proof.
  intros He Hr Hx. unfold Config.from_pyfile, classmethod, after_ioerror.
  destruct r; rewrite He; cbn [negb]; unfold bind, try_except, lift;
    rewrite Hr, Hx; simpl; now destruct (silent && _)%bool.
Qed.

Lemma from_pyfile_exec_ioerror_witness :
  let w := {| environ := fun _ => None;
              path_exists := fun _ => true;
              read_bytes := fun _ => Return "open('/etc/defaults').read()";
              read_text := fun _ => Return "";
              exec_compile := fun _ _ _ =>
                raise (IOError ENOENT "No such file or directory");
              json_loads := fun _ => Raise (ValueError "Expecting value") |} in
  path_exists w "app.py" = true /\
  Config.from_pyfile w (OnClass ConfigClass) "app.py" true [] = (Return RetFalse, []).
Proof.
  intros w. split; [reflexivity|].
  exact (from_pyfile_exec_ioerror w (OnClass ConfigClass) "app.py"
           "open('/etc/defaults').read()" true [] [] ENOENT
           "No such file or directory" eq_refl eq_refl eq_refl).
Defined.

(** X16: an exception that is not an [IOError], raised while the file is
    read, executed or parsed (a syntax error, a JSON decoding error, ...),
    comes out of the file loader unchanged whatever [silent] is, and no
    [Config] is allocated: the object store is what it was, or what the
    executed code had made of it when it raised. *)
Theorem file_loaders_other_errors
    (w : World) (r : receiver) (filepath : string) (silent : bool) (h : heap)
    (e : exn) :
  path_exists w filepath = true ->
  (forall errno strerror, e <> IOError errno strerror) ->
  (read_bytes w filepath = Raise e ->
   Config.from_pyfile w r filepath silent h = (Raise e, h)) /\
  (forall source h',
     read_bytes w filepath = Return source ->
     exec_compile w source filepath
       (setitem "__file__" (VStr filepath) (ModuleType "config")) h =
       (Raise e, h') ->
     Config.from_pyfile w r filepath silent h = (Raise e, h')) /\
  ((read_text w filepath = Raise e \/
    exists text, read_text w filepath = Return text /\
                 json_loads w text = Raise e) ->
   Config.from_json w r filepath silent h = (Raise e, h)).
Proof.
  intros He Hnot.
  assert (Hon : forall A h0, @Config.on_ioerror A silent e h0 = (Raise e, h0)).
  { intros A h0. destruct e; try reflexivity. now destruct (Hnot errno strerror). }
  split; [|split].
  - intros Hr. unfold Config.from_pyfile, classmethod.
    destruct r; rewrite He; cbn [negb]; unfold bind, try_except, lift;
      rewrite Hr; rewrite Hon; reflexivity.
  - intros source h' Hr Hx. unfold Config.from_pyfile, classmethod.
    destruct r; rewrite He; cbn [negb]; unfold bind, try_except, lift;
      rewrite Hr, Hx; rewrite Hon; reflexivity.
  - intros Hfail. unfold Config.from_json, classmethod.
    destruct r; rewrite He; cbn [negb]; unfold bind, try_except, lift;
      destruct Hfail as [Hr|(text & Hr & Hx)]; rewrite Hr; try rewrite Hx;
      rewrite Hon; reflexivity.
Qed.

Lemma file_loaders_other_errors_witness :
  let w := {| environ := fun _ => None;
              path_exists := fun _ => true;
              read_bytes := fun _ => Return "DEBUG = ";
              read_text := fun _ => Return "{";
              exec_compile := fun _ _ _ => raise (SyntaxError "invalid syntax");
              json_loads := fun _ => Raise (ValueError "Expecting property name") |} in
  path_exists w "app.json" = true /\
  Config.from_json w (OnClass ConfigClass) "app.json" true [] =
  (Raise (ValueError "Expecting property name"), []) /\
  Config.from_pyfile w (OnClass ConfigClass) "app.py" true [] =
  (Raise (SyntaxError "invalid syntax"), []).
Proof.
  intros w. split; [reflexivity|]. split.
  - apply (proj2 (proj2 (file_loaders_other_errors w (OnClass ConfigClass)
                           "app.json" true [] (ValueError "Expecting property name")
                           eq_refl (fun errno strerror => ltac:(discriminate))))).
    right. exists "{". split; reflexivity.
  - exact (proj1 (proj2 (file_loaders_other_errors w (OnClass ConfigClass)
                           "app.py" true [] (SyntaxError "invalid syntax")
                           eq_refl (fun errno strerror => ltac:(discriminate))))
             "DEBUG = " [] eq_refl eq_refl).
Defined.

(** X17: [from_envvar] never loads anything: every call raises or returns
    [False], and the object store is what it was. *)
Theorem from_envvar_never_loads
    (w : World) (r : receiver) (variable_name : string) (silent : bool)
    (h : heap) :
  snd (Config.from_envvar w r variable_name silent h) = h /\
  forall cfg,
    fst (Config.from_envvar w r variable_name silent h) <> Return (RetConfig cfg).
Proof.
  unfold Config.from_envvar, classmethod.
  destruct r; destruct (environ w variable_name) as [[|a path]|];
    destruct silent; split; try reflexivity; intros cfg; discriminate.
Qed.

(** ** [main.py] *)

(** X18: a configuration file whose extension is neither [.json] nor [.py]
    makes [init_config] raise before any file is looked at; the object
    store, and with it what [config.cfg] is bound to, stays as it was. *)
Theorem init_config_unsupported_extension
    (w : World) (args : Namespace) (h : heap) :
  snd (splitext (config_file args)) <> ".json" ->
  snd (splitext (config_file args)) <> ".py" ->
  init_config w args h =
  (Raise (Exception "还未实现该配置文件格式的读取方法"), h).
Proof.
  intros Hj Hp. unfold init_config. cbv zeta.
  destruct (String.eqb_spec (snd (splitext (config_file args))) ".json");
    [contradiction|].
  destruct (String.eqb_spec (snd (splitext (config_file args))) ".py");
    [contradiction|].
  reflexivity.
Qed.

Lemma init_config_unsupported_extension_witness :
  let args := {| log_file := ""; log_level := "info";
                 config_file := "/etc/conf.d/app.yaml" |} in
  snd (splitext (config_file args)) <> ".json" /\
  snd (splitext (config_file args)) <> ".py" /\
  init_config example_world args [[]] =
  (Raise (Exception "还未实现该配置文件格式的读取方法"), [[]]).
Proof.
  intros args.
  assert (Hj : snd (splitext (config_file args)) <> ".json")
    by (vm_compute; discriminate).
  assert (Hp : snd (splitext (config_file args)) <> ".py")
    by (vm_compute; discriminate).
  split; [exact Hj|]. split; [exact Hp|].
  exact (init_config_unsupported_extension example_world args [[]] Hj Hp).
Defined.

(** X19: with a [.json] configuration file that holds a JSON object,
    [init_config] binds [config.cfg] to a new store in which the three
    command-line settings (config_file, log_file, log_level) have the
    values of [args], whatever the file says for them, and every other key
    has the value of the file. *)
Theorem init_config_args_override_file
    (w : World) (args : Namespace) (h : heap) (text : string) (doc : dict) :
  snd (splitext (config_file args)) = ".json" ->
  path_exists w (config_file args) = true ->
  read_text w (config_file args) = Return text ->
  json_loads w text = Return (Mapping doc) ->
  exists d,
    init_config w args h = (Return (length h), h ++ [d]) /\
    getitem "config_file" d = Some (VStr (config_file args)) /\
    getitem "log_file" d = Some (VStr (log_file args)) /\
    getitem "log_level" d = Some (VStr (log_level args)) /\
    forall k, k <> "config_file" -> k <> "log_file" -> k <> "log_level" ->
              getitem k d = last_binding k doc.
Proof.
  intros Hext He Hr Hj.
  exists (update (_get_kwargs args) (update doc [])).
  split.
  - unfold init_config. cbv zeta. rewrite Hext. cbn [String.eqb Ascii.eqb Bool.eqb].
    unfold bind at 1.
    rewrite (from_json_loads w _ _ _ h text doc He Hr Hj).
    unfold bind.
    rewrite (from_mapping_iterable _ _ _ _ _ (lookup_fresh h (update doc []))).
    rewrite scan_all_pairs. cbn [fst snd]. unfold ret.
    now rewrite insert_fresh.
  - split; [now rewrite getitem_update|].
    split; [now rewrite getitem_update|].
    split; [now rewrite getitem_update|].
    intros k H1 H2 H3. rewrite !getitem_update. simpl.
    destruct (String.eqb_spec k "log_level"); [contradiction|].
    destruct (String.eqb_spec k "log_file"); [contradiction|].
    destruct (String.eqb_spec k "config_file"); [contradiction|].
    now destruct (last_binding k doc).
Qed.

Lemma init_config_args_override_file_witness :
  let args := {| log_file := "app.log"; log_level := "warning";
                 config_file := "/etc/app.json" |} in
  snd (splitext (config_file args)) = ".json" /\
  path_exists example_world (config_file args) = true /\
  exists d,
    init_config example_world args [[]] = (Return 1, [[]] ++ [d]) /\
    getitem "log_level" d = Some (VStr "warning").
Proof.
  intros args. split; [reflexivity|]. split; [reflexivity|].
  destruct (init_config_args_override_file example_world args [[]] app_json
              [("log_level", VStr "debug"); ("log_file", VStr "")]
              eq_refl eq_refl eq_refl eq_refl)
    as (d & Hrun & _ & _ & Hlevel & _).
  exists d. split; [exact Hrun | exact Hlevel].
Defined.

Lemma init_config_eq (w : World) (args : Namespace) (h h' : heap)
    (o : outcome load_result) :
  (if String.eqb (snd (splitext (config_file args))) ".json"
   then Config.from_json w (OnClass ConfigClass) (config_file args) false
   else if String.eqb (snd (splitext (config_file args))) ".py"
   then Config.from_pyfile w (OnClass ConfigClass) (config_file args) false
   else raise (Exception "还未实现该配置文件格式的读取方法")) h = (o, h') ->
  init_config w args h =
  match o with
  | Return RetFalse => (Raise (AttributeError "from_mapping"), h')
  | Return (RetConfig cfg) =>
      (Config.from_mapping cfg
         [Other (Items (pairs_as_items (_get_kwargs args)))] [] ;;;
       ret cfg) h'
  | Raise e => (Raise e, h')
  end.
Proof.
  intros H. unfold init_config. cbv zeta. unfold bind at 1. rewrite H.
  destruct o as [[|cfg]|e]; reflexivity.
Qed.

(** With a [.json] file, whatever happens, [init_config] raises, or returns
    a new store over which the command-line settings were written last. *)
Lemma init_config_json_cases (w : World) (args : Namespace) (h : heap) :
  snd (splitext (config_file args)) = ".json" ->
  (exists e h', init_config w args h = (Raise e, h')) \/
  (exists d, init_config w args h =
             (Return (length h), h ++ [update (_get_kwargs args) d])).
Proof.
  intros Hext.
  destruct (from_json_shape w (OnClass ConfigClass) (config_file args) false h)
    as (o & h' & Hrun & Hshape).
  assert (Hload :
    (if String.eqb (snd (splitext (config_file args))) ".json"
     then Config.from_json w (OnClass ConfigClass) (config_file args) false
     else if String.eqb (snd (splitext (config_file args))) ".py"
     then Config.from_pyfile w (OnClass ConfigClass) (config_file args) false
     else raise (Exception "还未实现该配置文件格式的读取方法")) h = (o, h')).
  { rewrite Hext. exact Hrun. }
  rewrite (init_config_eq w args h h' o Hload).
  destruct Hshape as [(-> & Hno & Hf)|(d & -> & [->|[e ->]])].
  - destruct o as [[|cfg]|e].
    + left. eexists _, _. reflexivity.
    + now destruct (Hno cfg).
    + left. eexists _, _. reflexivity.
  - right. exists d. unfold bind.
    rewrite (from_mapping_iterable _ _ _ _ _ (lookup_fresh h d)).
    rewrite scan_all_pairs. cbn [fst snd]. unfold ret.
    now rewrite insert_fresh.
  - left. eexists _, _. reflexivity.
Qed.

(** X20: with [use_config] and a [.json] configuration file, the file never
    decides how logging is set up, whatever it holds.  [main] either raises
    or issues exactly the [logging.basicConfig] call that the variant
    without a configuration file issues for the same command line.  (A
    [.py] file is executed, and its code can do anything.) *)
Theorem main_logging_ignores_json_file
    (w : World) (args : Namespace) (h : heap) :
  snd (splitext (config_file args)) = ".json" ->
  (exists e h', main w args h = (Raise e, h')) \/
  (exists h', main w args h = (Return (init_logger_args args), h')).
Proof.
  intros Hext. unfold main.
  destruct (init_config_json_cases w args h Hext) as [(e & h' & Hrun)|(d & Hrun)].
  - left. exists e, h'. unfold bind. now rewrite Hrun.
  - right. exists (h ++ [update (_get_kwargs args) d]).
    unfold bind at 1. rewrite Hrun. unfold init_logger, bind.
    rewrite (deref_run _ _ _ (lookup_fresh h _)). unfold ret, dict_get.
    rewrite !getitem_update. reflexivity.
Qed.

Lemma main_logging_ignores_json_file_witness :
  let args := {| log_file := "app.log"; log_level := "warning";
                 config_file := "/etc/app.json" |} in
  snd (splitext (config_file args)) = ".json" /\
  main example_world args [[]] =
  (Return (init_logger_args args),
   [[]; [("log_level", VStr "warning"); ("log_file", VStr "app.log");
         ("config_file", VStr "/etc/app.json")]]) /\
  ((exists e h', main example_world args [[]] = (Raise e, h')) \/
   (exists h', main example_world args [[]] = (Return (init_logger_args args), h'))).
Proof.
  intros args. split; [reflexivity|]. split; [reflexivity|].
  exact (main_logging_ignores_json_file example_world args [[]] eq_refl).
Defined.



(** X22: on a store that has neither a log_level nor a log_file key (the
    empty [Config] the module [config] starts with, for instance),
    [init_logger] asks for INFO with the short format and no file, and
    leaves the store as it is. *)
Theorem init_logger_defaults (cfg : loc) (h : heap) (d : dict) :
  h !! cfg = Some d ->
  getitem "log_level" d = None ->
  getitem "log_file" d = None ->
  init_logger cfg h =
  (Return {| level := INFO;
             format := "%(asctime)s %(levelname)s %(message)s";
             datefmt := "%a, %d %b %Y %H:%M:%S";
             filename := None; filemode := None |}, h).
Proof.
  intros H Hl Hf. unfold init_logger, bind. rewrite (deref_run _ _ _ H).
  unfold dict_get. now rewrite Hl, Hf.
Qed.

Lemma init_logger_defaults_witness :
  [([] : dict)] !! 0 = Some [] /\
  init_logger 0 [[]] =
  (Return {| level := INFO;
             format := "%(asctime)s %(levelname)s %(message)s";
             datefmt := "%a, %d %b %Y %H:%M:%S";
             filename := None; filemode := None |}, [[]]).
Proof.
  split; [reflexivity|].
  exact (init_logger_defaults 0 [[]] [] eq_refl eq_refl eq_refl).
Defined.
